(** * Layout / reading-order / OCR reconciliation pipeline

    A shallow embedding of the document-parsing core of the repository:

    - [toolkit.py]        : [scale_bbox], [add_unique_id], [preprocess_layout_df]
    - [layout_surya.py]   : [run_surya], [order_layout], [do_order],
                            [do_order_by_page], [parse_layout_res],
                            [parse_order_res], [get_bboxes], [get_box_num]
    - [ocr_tesseract.py]  : [run_ocr], [crop_images], [tesseract_ocr_multi]
    - [__init__.py]       : [PdfParser.parse_pdf], [get_surya_df],
                            [get_ocr_df], [_merge_layout_ocr]

    Conventions of the embedding.

    - Python floats are exact rationals ([Q]); [math.floor], [math.ceil] are
      [Qfloor], [Qceiling]; [int(f)] truncates toward zero.
    - A pandas DataFrame is the list of its rows, in row order; each stage of
      the pipeline has its own row record, holding the columns present then.
      The [astype(str)] / [eval] round trip of the geometry columns is the
      identity on the typed value and is not represented.
    - Python dicts are [gmap]s with [string] keys; the keys are the very
      strings the code builds ([str(page) + '_' + ...]).
    - Exceptions are values of [exn]; effectful code lives in the monad [M],
      which threads the [world]: the files on disk, the number of external
      processes launched so far, and the log of calls to the ordering model.
      An exception leaves the world as it was when it was raised.
    - The models (detector, ordering model), the PDF rasteriser, the image
      library and the OCR process are external: they are the fields of the
      class [External].
    - [print] and [time.sleep] have no effect on any value and are dropped. *)

From Stdlib Require Import ZArith QArith Qround Lia Ascii String.
From stdpp Require Import base list strings gmap pretty sorting.

#[local] Open Scope string_scope.
#[local] Open Scope list_scope.
#[local] Open Scope Z_scope.

(** ** Python values *)

Inductive exn : Type :=
  | IndexError
  | KeyError (column : string)
  | ValueError (msg : string)
  | ZeroDivisionError
  | FileNotFoundError
  | OSError
  | Exception (msg : string).

Definition result (A : Type) : Type := (exn + A)%type.

(** A four-tuple [(x, y, w, h)]: the corners [(x, y)] and [(w, h)]. *)
Definition bbox (A : Type) : Type := (A * A * A * A)%type.

Definition bbox_coords {A} (b : bbox A) : list A :=
  let '(x, y, w, h) := b in [x; y; w; h].

(** [int(f)] for a float [f]: truncation toward zero. *)
Definition py_int (f : Q) : Z := Z.quot (Qnum f) (Z.pos (Qden f)).

(** [a / b] on Python ints: true division. *)
Definition py_truediv (a b : Z) : result Q :=
  if decide (b = 0) then inl ZeroDivisionError
  else inr (inject_Z a / inject_Z b)%Q.

(** [l[-n:]] for [n >= 1]. *)
Definition py_last_slice {A} (n : nat) (l : list A) : list A :=
  drop (length l - n)%nat l.

(** [range(0, len, step)] for [step >= 1]. *)
Definition py_range_step (len step : nat) : list nat :=
  (λ k, k * step)%nat <$> seq 0 ((len + step - 1) / step)%nat.

(** [[l[i:i + n] for i in range(0, len(l), n)]]. *)
Definition py_batches {A} (n : nat) (l : list A) : list (list A) :=
  (λ i, take n (drop i l)) <$> py_range_step (length l) n.

(** [l[start:stop]]: a negative index counts from the end, and both indices
    are clipped to the list. *)
Definition py_slice {A} (l : list A) (start stop : Z) : list A :=
  let n := Z.of_nat (length l) in
  let clip := λ i, if decide (i < 0) then Z.max (i + n) 0 else Z.min i n in
  take (Z.to_nat (clip stop - clip start)) (drop (Z.to_nat (clip start)) l).

(** [sep.join(parts)]. *)
Fixpoint py_join (sep : string) (parts : list string) : string :=
  match parts with
  | [] => ""
  | [p] => p
  | p :: rest => p +:+ sep +:+ py_join sep rest
  end.

(** [s.split(sep)] for a one-character separator: never empty. *)
Fixpoint py_split (sep : ascii) (s : string) : list string :=
  match s with
  | EmptyString => [EmptyString]
  | String c s' =>
      if Ascii.eqb c sep then EmptyString :: py_split sep s'
      else match py_split sep s' with
           | [] => [String c EmptyString]
           | seg :: segs => String c seg :: segs
           end
  end.

(** The form feed ['\f']. *)
Definition form_feed : ascii := ascii_of_nat 12.

(** [dict(zip(keys, values))]: a later pair overwrites an earlier one. *)
Definition py_dict_zip {V} (keys : list string) (values : list V)
  : gmap string V :=
  foldl (λ m kv, <[kv.1 := kv.2]> m) ∅ (zip keys values).

(** ** toolkit.py *)

Module tk.

Definition scale_bbox (b : bbox Z) (scale : Q) (buffer : Z) : bbox Z :=
  let '(x, y, w, h) := b in
  let x := Qfloor (inject_Z (x - buffer) * scale) in
  let y := Qfloor (inject_Z (y - buffer) * scale) in
  let w := Qceiling (inject_Z (w + buffer) * scale) in
  let h := Qceiling (inject_Z (h + buffer) * scale) in
  (x, y, w, h).

(** The two column updates of [add_unique_id]: the geometry becomes a list
    of ints, and the key is [str(page_idx) + '_' + '_'.join(str(i))]. *)
Definition int_bbox (b : bbox Q) : bbox Z :=
  let '(x, y, w, h) := b in (py_int x, py_int y, py_int w, py_int h).

Definition unique_id (page_idx : nat) (b : bbox Z) : string :=
  pretty page_idx +:+ "_" +:+ py_join "_" (pretty <$> bbox_coords b).

End tk.

(** ** Results of the external models (the Surya result objects) *)

Record LayoutBox := {
  lb_polygon : list (Q * Q);
  lb_confidence : Q;
  lb_label : string;
  lb_bbox : bbox Q;
}.

Record LayoutResult := {
  lr_bboxes : list LayoutBox;
  lr_image_bbox : bbox Q;
}.

Record OrderBox := {
  ob_bbox : bbox Q;
  ob_position : Z;
}.

Record OrderResult := {
  or_bboxes : list OrderBox;
  or_image_bbox : bbox Q;
}.

(** What [subprocess.run] does: it raises, or it completes with a captured
    standard output. *)
Inductive proc_outcome : Type :=
  | ProcRaises (e : exn)
  | Completed (stdout : option string).

(** ** External collaborators *)

Class External := {
  Pdf : Type;
  Image : Type;
  (** [tk.pdfbytes2imgs(pdf_bytes, ppi)] *)
  pdfbytes2imgs : Pdf → Z → list Image;
  (** [tk.preprocess_img(img)] *)
  preprocess_img : Image → Image;
  (** [img.crop((x, y, w, h))] *)
  img_crop : Image → bbox Z → Image;
  (** [batch_layout_detection] over [batch_text_detection]: one result per
      image *)
  batch_layout_detection : list Image → list LayoutResult;
  (** [batch_ordering(images, bboxes, model, processor)] *)
  batch_ordering : list Image → list (list (bbox Q)) → list OrderResult;
  (** [subprocess.run(params, ...)]: the outcome of the [n]-th process
      launched, given the command line and the content of the input file *)
  subprocess_run : nat → list string → option (list Image) → proc_outcome;
}.

(** ** DataFrame rows *)

(** [parse_layout_res] *)
Record layout_row := {
  l_page_idx : nat;
  l_image_bbox : bbox Q;
  l_block_idx : nat;
  l_polygon : list (Q * Q);
  l_confidence : Q;
  l_label : string;
  l_bbox : bbox Q;
}.

(** [parse_order_res] *)
Record order_row := {
  o_page_idx : nat;
  o_image_bbox : bbox Q;
  o_block_idx : nat;
  o_bbox : bbox Q;
  o_position : Z;
}.

(** [order_layout]: the layout columns, the geometry as ints, and
    [position]. *)
Record ordered_row := {
  page_idx : nat;
  image_bbox : bbox Q;
  block_idx : nat;
  polygon : list (Q * Q);
  confidence : Q;
  label : string;
  row_bbox : bbox Z;
  position : Z;
}.

(** [get_surya_df]: the column [layout_ppi] is added. *)
Record surya_row := {
  s_row : ordered_row;
  layout_ppi : Z;
}.

(** [crop_images]: [page_idx], [block_idx], [image]. *)
Record image_row `{External} := {
  i_page_idx : nat;
  i_block_idx : nat;
  i_image : Image;
}.

(** [run_ocr]: [image_df] without [image], with [text]. *)
Record ocr_row := {
  t_page_idx : nat;
  t_block_idx : nat;
  t_text : string;
}.

(** [parse_pdf]: the selected columns
    [page_index, position, bbox, label, text, layout_ppi];
    a missing text is [None]. *)
Record merged_row := {
  m_page_index : nat;
  m_position : Z;
  m_bbox : bbox Z;
  m_label : string;
  m_text : option string;
  m_layout_ppi : Z;
}.

Definition with_bbox (r : ordered_row) (b : bbox Z) : ordered_row :=
  {| page_idx := page_idx r; image_bbox := image_bbox r;
     block_idx := block_idx r; polygon := polygon r;
     confidence := confidence r; label := label r;
     row_bbox := b; position := position r |}.

(** ** The world and the monad of effectful code *)

Section effects.
Context `{External}.

Record world := {
  (** the multi-frame image files on disk, by path *)
  files : gmap string (list Image);
  (** how many external processes have been launched *)
  launches : nat;
  (** the calls made to the ordering model, oldest first *)
  order_calls : list (list Image * list (list (bbox Q)));
}.

Definition M (A : Type) : Type := world → result A * world.

Definition ret {A} (a : A) : M A := λ w, (inr a, w).
Definition raise {A} (e : exn) : M A := λ w, (inl e, w).
Definition bind {A B} (m : M A) (k : A → M B) : M B :=
  λ w, match m w with
       | (inl e, w') => (inl e, w')
       | (inr a, w') => k a w'
       end.
(** [try: m  except: h] *)
Definition try_except {A} (m : M A) (h : exn → M A) : M A :=
  λ w, match m w with
       | (inl e, w') => h e w'
       | (inr a, w') => (inr a, w')
       end.
Definition lift {A} (r : result A) : M A := λ w, (r, w).

(** [imgs[0].save(path, save_all=True, append_images=imgs[1:])] *)
Definition save_all (path : string) (imgs : list Image) : M unit :=
  λ w, (inr (),
        {| files := <[path := imgs]> (files w);
           launches := launches w; order_calls := order_calls w |}).

(** [os.remove(path)] *)
Definition os_remove (path : string) : M unit :=
  λ w, match files w !! path with
       | None => (inl FileNotFoundError, w)
       | Some _ =>
           (inr (),
            {| files := delete path (files w);
               launches := launches w; order_calls := order_calls w |})
       end.

(** [subprocess.run(params, capture_output=True, text=True)]; the file the
    command line names as its input is [input]. *)
Definition run_process (params : list string) (input : string)
  : M (option string) :=
  λ w,
    let w' := {| files := files w; launches := S (launches w);
                 order_calls := order_calls w |} in
    match subprocess_run (launches w) params (files w !! input) with
    | ProcRaises e => (inl e, w')
    | Completed out => (inr out, w')
    end.

(** A call of the ordering model, recorded in the log. *)
Definition call_ordering (images : list Image)
    (bboxes : list (list (bbox Q))) : M (list OrderResult) :=
  λ w, (inr (batch_ordering images bboxes),
        {| files := files w; launches := launches w;
           order_calls := order_calls w ++ [(images, bboxes)] |}).

End effects.

Notation "x <~ m ;; k" := (bind m (λ x, k))
  (at level 100, m at next level, right associativity,
   format "'[v' x  <~  m  ;;  '/' k ']'").

(** [enumerate(l)] *)
Definition enumerate {A} (l : list A) : list (nat * A) := imap pair l.

(** [max(l)] on a list of ints. *)
Definition py_max (l : list nat) : result nat :=
  match l with
  | [] => inl (ValueError "max() arg is an empty sequence")
  | n :: rest => inr (foldl Nat.max n rest)
  end.

(** [pd.DataFrame(res_list)] followed by a column access: with no row there
    is no column, and the access raises. *)
Definition frame_of {R} (column : string) (res_list : list R)
  : result (list R) :=
  match res_list with
  | [] => inl (KeyError column)
  | _ => inr res_list
  end.

(** ** layout_surya.py *)

Module ls.
Section layout_surya.
Context `{External}.

Definition parse_layout_res (layout_predictions : list LayoutResult)
  : result (list layout_row) :=
  let res_list :=
    '(page_idx, page) ← enumerate layout_predictions;
    '(block_idx, block) ← enumerate (lr_bboxes page);
    [ {| l_page_idx := page_idx;
         l_image_bbox := lr_image_bbox page;
         l_block_idx := block_idx;
         l_polygon := lb_polygon block;
         l_confidence := lb_confidence block;
         l_label := lb_label block;
         l_bbox := lb_bbox block |} ] in
  frame_of "page_idx" res_list.

Definition parse_order_res (order_predictions : list OrderResult)
  : result (list order_row) :=
  let res_list :=
    '(page_idx, page) ← enumerate order_predictions;
    '(block_idx, block) ← enumerate (or_bboxes page);
    [ {| o_page_idx := page_idx;
         o_image_bbox := or_image_bbox page;
         o_block_idx := block_idx;
         o_bbox := ob_bbox block;
         o_position := ob_position block |} ] in
  frame_of "page_idx" res_list.

Definition get_bboxes (layout_predictions : list LayoutResult)
  : list (list (bbox Q)) :=
  (λ page, lb_bbox <$> lr_bboxes page) <$> layout_predictions.

Definition get_box_num (bboxes : list (list (bbox Q))) : nat :=
  sum_list (length <$> bboxes).

Definition do_layout (images : list Image) : list LayoutResult :=
  batch_layout_detection images.

Definition do_order (images : list Image) (bboxes : list (list (bbox Q)))
  : M (list OrderResult) :=
  call_ordering images bboxes.

Definition batch_size : nat := 1.

(** The loop of [do_order_by_page] over the zipped batches, with the
    accumulator [order_predictions]. *)
Fixpoint order_batches
    (batches : list (list Image * list (list (bbox Q))))
    (order_predictions : list OrderResult) : M (list OrderResult) :=
  match batches with
  | [] => ret order_predictions
  | (image_batch, bbox_batch) :: rest =>
      temp_pred <~
        (if decide (255 < get_box_num bbox_batch)%nat
         then ret (py_last_slice batch_size order_predictions)
         else do_order image_batch bbox_batch) ;;
      order_batches rest (order_predictions ++ temp_pred)
  end.

Definition do_order_by_page (images : list Image)
    (bboxes : list (list (bbox Q))) : M (list OrderResult) :=
  let image_batches := py_batches batch_size images in
  let bboxes_batches := py_batches batch_size bboxes in
  order_batches (zip image_batches bboxes_batches) [].

(** [sort_values(by=['page_idx', 'position'])]: pandas sorts on several
    columns with a stable lexicographic sort. *)
Definition key_le (a b : ordered_row) : Prop :=
  (page_idx a < page_idx b)%nat ∨
  (page_idx a = page_idx b ∧ position a ≤ position b).

#[global] Instance key_le_dec a b : Decision (key_le a b).
Proof. unfold key_le. apply _. Defined.

Fixpoint insert_row (r : ordered_row) (l : list ordered_row)
  : list ordered_row :=
  match l with
  | [] => [r]
  | r' :: l' =>
      if decide (key_le r r') then r :: l else r' :: insert_row r l'
  end.

Definition sort_values (l : list ordered_row) : list ordered_row :=
  foldr insert_row [] l.

Definition layout_unique_id (r : layout_row) : string :=
  tk.unique_id (l_page_idx r) (tk.int_bbox (l_bbox r)).

Definition order_unique_id (r : order_row) : string :=
  tk.unique_id (o_page_idx r) (tk.int_bbox (o_bbox r)).

Definition position_map (order_df : list order_row) : gmap string Z :=
  py_dict_zip (order_unique_id <$> order_df) (o_position <$> order_df).

(** One row of [layout_df] after the [map], [fillna(-1)] and
    [astype(int)] of [order_layout]. *)
Definition attach_position (pm : gmap string Z) (r : layout_row)
  : ordered_row :=
  {| page_idx := l_page_idx r;
     image_bbox := l_image_bbox r;
     block_idx := l_block_idx r;
     polygon := l_polygon r;
     confidence := l_confidence r;
     label := l_label r;
     row_bbox := tk.int_bbox (l_bbox r);
     position := default (-1) (pm !! layout_unique_id r) |}.

Definition order_layout (layout_df : list layout_row)
    (order_df : list order_row) : list ordered_row :=
  sort_values (attach_position (position_map order_df) <$> layout_df).

Definition run_surya (images : list Image) : M (list ordered_row) :=
  let layout_preds := do_layout images in
  layout_df <~ lift (parse_layout_res layout_preds) ;;
  let bboxes := get_bboxes layout_preds in
  let page_box_num := length <$> bboxes in
  largest <~ lift (py_max page_box_num) ;;
  let order_function :=
    if decide (largest < 255)%nat then do_order else do_order_by_page in
  order_predictions <~ order_function images bboxes ;;
  order_df <~ lift (parse_order_res order_predictions) ;;
  ret (order_layout layout_df order_df).

End layout_surya.
End ls.

(** ** ocr_tesseract.py *)

Module ot.
Section ocr_tesseract.
Context `{External}.

(** [tk.preprocess_layout_df]: the column rename changes no value; the
    [layout_df['bbox'][0]] probe raises on a frame without rows; the
    geometry is already a list of ints, so nothing is evaluated. *)
Definition preprocess_layout_df (layout_df : list surya_row)
  : result (list surya_row) :=
  match layout_df with
  | [] => inl (KeyError "0")
  | _ => inr layout_df
  end.

Definition scale_row (scale : Q) (buffer : Z) (r : surya_row) : surya_row :=
  {| s_row := with_bbox (s_row r) (tk.scale_bbox (row_bbox (s_row r)) scale buffer);
     layout_ppi := layout_ppi r |}.

(** [crop_images] writes the scaled geometry into the [bbox] column of the
    frame it was given, so it returns that frame along with [image_df]. *)
Definition crop_images (images : list Image) (layout_table : list surya_row)
    (image_ppi layout_ppi : Z) (buffer : Z)
  : result (list image_row * list surya_row) :=
  match py_truediv image_ppi layout_ppi with
  | inl e => inl e
  | inr scale =>
      let layout_table := scale_row scale buffer <$> layout_table in
      let image_dict :=
        '(page_index, img) ← enumerate images;
        let page_layout_df :=
          filter (λ r, page_idx (s_row r) = page_index) layout_table in
        let bbox_num := length page_layout_df in
        if decide (255 ≤ bbox_num)%nat then []
        else
          (λ row, {| i_page_idx := page_index;
                     i_block_idx := block_idx (s_row row);
                     i_image := img_crop img (row_bbox (s_row row)) |})
            <$> page_layout_df in
      inr (image_dict, layout_table)
  end.

Definition tesseract_params (tesseract_cmd temp_path lang : string)
  : list string :=
  [tesseract_cmd; temp_path; "stdout"; "-l"; lang;
   "--oem"; "1"; "--psm"; "3"].

Definition tesseract_ocr_multi (tesseract_cmd : string)
    (imgs : list Image) (lang temp_path : string) : M (list string) :=
  match imgs with
  | [] => raise IndexError
  | _ :: _ =>
      _ <~ save_all temp_path imgs ;;
      let params := tesseract_params tesseract_cmd temp_path lang in
      output_text <~
        try_except (run_process params temp_path)
                   (λ _, run_process params temp_path) ;;
      match output_text with
      | None => ret (replicate (length imgs) "")
      | Some output_text =>
          let splitted := py_split form_feed output_text in
          _ <~ os_remove temp_path ;;
          ret splitted
      end
  end.

(** [image_df['text'] = ocr_res] under the [try]: pandas refuses a list
    whose length is not the number of rows. *)
Definition assign_text (image_df : list image_row) (ocr_res : list string)
  : result (list ocr_row) :=
  if decide (length ocr_res = length image_df)
  then inr (zip_with (λ r text, {| t_page_idx := i_page_idx r;
                                   t_block_idx := i_block_idx r;
                                   t_text := text |})
                     image_df ocr_res)
  else inl (Exception "Error in adding OCR results to DataFrame").

(** Returns [image_df] and the frame [layout_table], whose [bbox] column
    [crop_images] has overwritten. *)
Definition run_ocr (images : list Image) (layout_table : list surya_row)
    (image_ppi layout_ppi : Z) (lang : string) (buffer_size : Z)
    (temp_path : string) : M (list ocr_row * list surya_row) :=
  layout_table <~ lift (preprocess_layout_df layout_table) ;;
  cropped <~ lift (crop_images images layout_table image_ppi layout_ppi
                               buffer_size) ;;
  let '(image_df, layout_table) := cropped in
  image_df <~ lift (frame_of "image" image_df) ;;
  let images := i_image <$> image_df in
  ocr_res <~ tesseract_ocr_multi "tesseract" images lang temp_path ;;
  image_df <~ lift (assign_text image_df ocr_res) ;;
  ret (image_df, layout_table).

End ocr_tesseract.
End ot.

(** ** __init__.py: class PdfParser *)

Module PdfParser.
Section pdf_parser.
Context `{External}.

(** [Path(__file__).parent / 'temp'] *)
Definition temp_folder : string := "temp".

Definition get_surya_df (pdf_bytes : Pdf) (ppi : Z) : M (list surya_row) :=
  let layout_images := pdfbytes2imgs pdf_bytes ppi in
  surya_df <~ ls.run_surya layout_images ;;
  ret ((λ r, {| s_row := r; layout_ppi := ppi |}) <$> surya_df).

(** The [if surya_ppi == ocr_ppi] of [get_ocr_df]. *)
Definition buffer_size (surya_ppi ocr_ppi : Z) : Z :=
  if decide (surya_ppi = ocr_ppi) then 0 else 2.

(** Returns [ocr_df] and the frame [surya_df] as [run_ocr] leaves it. *)
Definition get_ocr_df (pdf_bytes : Pdf) (surya_df : list surya_row)
    (lang : string) (surya_ppi ocr_ppi : Z) (temp_name : string)
  : M (list ocr_row * list surya_row) :=
  let ocr_images := pdfbytes2imgs pdf_bytes ocr_ppi in
  let ocr_images := preprocess_img <$> ocr_images in
  let buffer_size := buffer_size surya_ppi ocr_ppi in
  ot.run_ocr ocr_images surya_df ocr_ppi surya_ppi lang buffer_size
             (temp_folder +:+ "/" +:+ temp_name +:+ ".tiff").

(** [page_idx.astype(str) + '_' + block_idx.astype(str)] *)
Definition block_unique_id (page_idx block_idx : nat) : string :=
  pretty page_idx +:+ "_" +:+ pretty block_idx.

Definition text_map (ocr_df : list ocr_row) : gmap string string :=
  py_dict_zip ((λ r, block_unique_id (t_page_idx r) (t_block_idx r)) <$> ocr_df)
              (t_text <$> ocr_df).

(** Each row of [layout_df] with its new [text] column. *)
Definition _merge_layout_ocr (layout_df : list surya_row)
    (ocr_df : list ocr_row) : list (surya_row * option string) :=
  let tm := text_map ocr_df in
  (λ r, (r, tm !! block_unique_id (page_idx (s_row r)) (block_idx (s_row r))))
    <$> layout_df.

(** [merged_df[['page_index', 'position', 'bbox', 'label', 'text',
    'layout_ppi']]] *)
Definition select_columns (r : surya_row * option string) : merged_row :=
  {| m_page_index := page_idx (s_row r.1);
     m_position := position (s_row r.1);
     m_bbox := row_bbox (s_row r.1);
     m_label := label (s_row r.1);
     m_text := r.2;
     m_layout_ppi := layout_ppi r.1 |}.

Definition parse_pdf (pdf_bytes : Pdf) (lang : string) (ppi : Z)
    (temp_name : string) : M (list merged_row) :=
  surya_df <~ get_surya_df pdf_bytes ppi ;;
  ocr <~ get_ocr_df pdf_bytes surya_df lang ppi ppi temp_name ;;
  let '(ocr_df, surya_df) := ocr in
  let merged_df := _merge_layout_ocr surya_df ocr_df in
  ret (select_columns <$> merged_df).

(** The stages of [parse_pdf] as a caller of [get_surya_df], [get_ocr_df]
    and [_merge_layout_ocr] runs them with a layout resolution and an OCR
    resolution of their own ([get_ocr_df] defaults to 72 and 150). *)
Definition parse_at (pdf_bytes : Pdf) (lang : string)
    (surya_ppi ocr_ppi : Z) (temp_name : string) : M (list merged_row) :=
  surya_df <~ get_surya_df pdf_bytes surya_ppi ;;
  ocr <~ get_ocr_df pdf_bytes surya_df lang surya_ppi ocr_ppi temp_name ;;
  let '(ocr_df, surya_df) := ocr in
  let merged_df := _merge_layout_ocr surya_df ocr_df in
  ret (select_columns <$> merged_df).

End pdf_parser.
End PdfParser.

(** ** master.py: the share of one job of the job array *)

Module master.

(** [report_names] is what [json.load] read from [report_names.json];
    [//] is floor division, as [Z.div] is. *)
Definition get_report_names {A} (report_names : list A) (job_id n_jobs : Z)
  : result (list A) :=
  if decide (n_jobs = 0) then inl ZeroDivisionError
  else
    let batch_size := Z.of_nat (length report_names) / n_jobs in
    let start := (job_id - 1) * batch_size in
    let end_ := job_id * batch_size in
    let end_ := if decide (job_id = n_jobs)
                then Z.of_nat (length report_names) else end_ in
    inr (py_slice report_names start end_).

End master.

(** ** Concrete documents and collaborators

    A document is the list of its pages, a page the list of the boxes the
    detector finds on it.  The rasteriser tags each page image with its
    boxes and resolution; the detector reads the boxes off the image; the
    ordering model ranks the boxes of a page from the last to the first and
    hands their geometry back; cropping records the crop box. *)

Module scenario.

Inductive toy_image : Type :=
  | Page (blocks : list (bbox Q)) (ppi : Z)
  | Gray (img : toy_image)
  | Crop (img : toy_image) (box : bbox Z).

Fixpoint blocks_of (img : toy_image) : list (bbox Q) :=
  match img with
  | Page blocks _ => blocks
  | Gray img => blocks_of img
  | Crop img _ => blocks_of img
  end.

Definition page_extent : bbox Q := (0, 0, 1000, 1000)%Q.

Definition detect (img : toy_image) : LayoutResult :=
  {| lr_bboxes :=
       (λ b, {| lb_polygon := []; lb_confidence := 1%Q;
                lb_label := "Text"; lb_bbox := b |}) <$> blocks_of img;
     lr_image_bbox := page_extent |}.

Definition rank_reversed (bboxes : list (bbox Q)) : OrderResult :=
  {| or_bboxes :=
       imap (λ j b, {| ob_bbox := b;
                       ob_position := Z.of_nat (length bboxes - 1 - j) |})
            bboxes;
     or_image_bbox := page_extent |}.

Definition engine : Type :=
  nat → list string → option (list toy_image) → proc_outcome.

Definition toy (run : engine) : External :=
  {| Pdf := list (list (bbox Q));
     Image := toy_image;
     pdfbytes2imgs := λ pdf ppi, (λ blocks, Page blocks ppi) <$> pdf;
     preprocess_img := Gray;
     img_crop := Crop;
     batch_layout_detection := λ images, detect <$> images;
     batch_ordering := λ _ bboxes, rank_reversed <$> bboxes;
     subprocess_run := run |}.

(** An OCR process that prints [text] whatever it is given. *)
Definition prints (text : string) : engine :=
  λ _ _ _, Completed (Some text).

(** An OCR process that cannot be launched. *)
Definition unavailable : engine := λ _ _ _, ProcRaises OSError.

(** An OCR process that prints one page ["t"] per frame of its input,
    separated by form feeds. *)
Definition one_text_per_frame : engine :=
  λ _ _ input,
    Completed (Some (py_join (String form_feed "")
                             (replicate (length (default [] input)) "t"))).

(** An OCR process that completes without a captured output. *)
Definition prints_nothing : engine := λ _ _ _, Completed None.

(** The [j]-th box of a page: 8 by 8 at [(10 j, offset)]. *)
Definition box_at (offset : Z) (j : nat) : bbox Q :=
  (inject_Z (10 * Z.of_nat j), inject_Z offset,
   inject_Z (10 * Z.of_nat j + 8), inject_Z (offset + 8)).

(** A page of [n] boxes in a row at height [offset]. *)
Definition page_of (n : nat) (offset : Z) : list (bbox Q) :=
  box_at offset <$> seq 0 n.

(** Pages with 10, 20 and 300 boxes, no geometry shared between pages. *)
Definition doc_10_20_300 : list (list (bbox Q)) :=
  [page_of 10 0; page_of 20 100; page_of 300 200].

(** A first page of 256 boxes, then a page of 2 boxes that sit where the
    first two boxes of the first page sit. *)
Definition doc_256_2 : list (list (bbox Q)) :=
  [page_of 256 0; page_of 2 0].

(** A page of 10 boxes, then a page of exactly 255 boxes. *)
Definition doc_10_255 : list (list (bbox Q)) :=
  [page_of 10 0; page_of 255 100].

(** One page with 300 boxes. *)
Definition doc_300 : list (list (bbox Q)) := [page_of 300 0].

(** One page with exactly 255 boxes. *)
Definition doc_255 : list (list (bbox Q)) := [page_of 255 0].


(** One page with three boxes. *)
Definition doc_3 : list (list (bbox Q)) := [page_of 3 0].

Definition empty_world `{External} : world :=
  {| files := ∅; launches := 0; order_calls := [] |}.

(** A layout frame of five blocks on page 0 and an order frame that ranks
    blocks 2, 0 and 4 only. *)
Definition five_blocks : list layout_row :=
  (λ j, {| l_page_idx := 0; l_image_bbox := page_extent;
           l_block_idx := j; l_polygon := []; l_confidence := 1%Q;
           l_label := "Text"; l_bbox := box_at 0 j |}) <$> seq 0 5.

Definition three_ranked : list order_row :=
  [ {| o_page_idx := 0; o_image_bbox := page_extent; o_block_idx := 0;
       o_bbox := box_at 0 2; o_position := 0 |};
    {| o_page_idx := 0; o_image_bbox := page_extent; o_block_idx := 1;
       o_bbox := box_at 0 0; o_position := 1 |};
    {| o_page_idx := 0; o_image_bbox := page_extent; o_block_idx := 2;
       o_bbox := box_at 0 4; o_position := 2 |} ].

(** The table [parse_pdf] returns for [doc_3] at 72 ppi when the OCR
    process prints one ["t"] per frame. *)
Definition doc_3_parsed : list merged_row :=
  [ {| m_page_index := 0; m_position := 0; m_bbox := (20, 0, 28, 8);
       m_label := "Text"; m_text := Some "t"; m_layout_ppi := 72 |};
    {| m_page_index := 0; m_position := 1; m_bbox := (10, 0, 18, 8);
       m_label := "Text"; m_text := Some "t"; m_layout_ppi := 72 |};
    {| m_page_index := 0; m_position := 2; m_bbox := (0, 0, 8, 8);
       m_label := "Text"; m_text := Some "t"; m_layout_ppi := 72 |} ].

(** The layout table [get_surya_df] returns for a document, when it
    returns one. *)
Definition surya_of (run : engine) (pdf : list (list (bbox Q))) (ppi : Z)
  : list surya_row :=
  match (PdfParser.get_surya_df (H := toy run) pdf ppi empty_world).1 with
  | inr surya_df => surya_df
  | inl _ => []
  end.

(** The page images [get_ocr_df] hands to [run_ocr]. *)
Definition ocr_images_of (pdf : list (list (bbox Q))) (ppi : Z)
  : list toy_image :=
  Gray <$> ((λ blocks, Page blocks ppi) <$> pdf).

(** What [crop_images] returns for a document rasterised and laid out at
    one resolution, when it returns. *)
Definition crops_of (run : engine) (pdf : list (list (bbox Q))) (ppi : Z)
  : list (image_row (H := toy run)) * list surya_row :=
  match ot.crop_images (H := toy run) (ocr_images_of pdf ppi)
                       (surya_of run pdf ppi) ppi ppi 0 with
  | inr cropped => cropped
  | inl _ => ([], [])
  end.

(** The layout frame [parse_layout_res] builds for a document. *)
Definition layout_of (pdf : list (list (bbox Q))) (ppi : Z) : list layout_row :=
  match ls.parse_layout_res (detect <$> ((λ blocks, Page blocks ppi) <$> pdf)) with
  | inr layout_df => layout_df
  | inl _ => []
  end.

(** The table [parse_pdf] returns for a document, when it returns one. *)
Definition parsed_of (run : engine) (pdf : list (list (bbox Q))) (ppi : Z)
  : list merged_row :=
  match (PdfParser.parse_pdf (H := toy run) pdf "eng" ppi "sample"
                             empty_world).1 with
  | inr merged => merged
  | inl _ => []
  end.

(** An order frame that lists the five boxes of [five_blocks] and ranks
    them from the last to the first. *)
Definition five_ranked : list order_row :=
  (λ j, {| o_page_idx := 0; o_image_bbox := page_extent; o_block_idx := j;
           o_bbox := box_at 0 j; o_position := 4 - Z.of_nat j |}) <$> seq 0 5.

(** Two pages on which the detector finds nothing. *)
Definition doc_blank : list (list (bbox Q)) := [[]; []].

(** Three pages of text ["t"], a form feed between two pages. *)
Definition three_texts : string :=
  py_join (String form_feed "") (replicate 3 "t").

(** Two pages of text ["t"]. *)
Definition two_texts : string :=
  py_join (String form_feed "") (replicate 2 "t").

End scenario.

(** * Vocabulary of the statements *)

(** The blocks the detector produced: page index, block index, geometry and
    label, page by page and in detector order. *)
Definition detector_blocks (layout_predictions : list LayoutResult)
  : list (nat * nat * bbox Q * string) :=
  '(page_idx, page) ← enumerate layout_predictions;
  '(block_idx, block) ← enumerate (lr_bboxes page);
  [ (page_idx, block_idx, lb_bbox block, lb_label block) ].

(** The key under which [order_layout] looks a layout row up. *)
Definition row_key (r : ordered_row) : string :=
  tk.unique_id (page_idx r) (row_bbox r).

(** The rows that carry one given sort key. *)
Definition has_key (k : nat * Z) (r : ordered_row) : Prop :=
  page_idx r = k.1 ∧ position r = k.2.

#[global] Instance has_key_dec k r : Decision (has_key k r).
Proof. unfold has_key. apply _. Defined.

(** The sort order of the final table, on its own columns. *)
Definition merged_key_le (a b : merged_row) : Prop :=
  (m_page_index a < m_page_index b)%nat ∨
  (m_page_index a = m_page_index b ∧ m_position a ≤ m_position b).

(** What the [try] / [except] around [subprocess.run] obtains when its
    first launch is the [n]-th process: the output of the first launch, or
    of the second when the first raised. *)
Definition engine_stdout `{External} (n : nat) (params : list string)
    (input : option (list Image)) : result (option string) :=
  match subprocess_run n params input with
  | Completed out => inr out
  | ProcRaises _ =>
      match subprocess_run (S n) params input with
      | Completed out => inr out
      | ProcRaises e => inl e
      end
  end.

(** How many processes that [try] / [except] launches. *)
Definition engine_launches `{External} (n : nat) (params : list string)
    (input : option (list Image)) : nat :=
  match subprocess_run n params input with
  | Completed _ => 1
  | ProcRaises _ => 2
  end.

(** The world after the temporary file was written and the OCR processes
    were launched. *)
Definition after_ocr `{External} (w : world) (temp_path : string)
    (imgs : list Image) (ran : nat) (removed : bool) : world :=
  {| files := if removed then delete temp_path (<[temp_path := imgs]> (files w))
              else <[temp_path := imgs]> (files w);
     launches := (ran + launches w)%nat;
     order_calls := order_calls w |}.

(** The world with more calls of the ordering model in its log. *)
Definition log_calls `{External} (w : world)
    (calls : list (list Image * list (list (bbox Q)))) : world :=
  {| files := files w; launches := launches w;
     order_calls := order_calls w ++ calls |}.

(** A batch the loop of [do_order_by_page] sends to the ordering model. *)
Definition scored `{External} (batch : list Image * list (list (bbox Q)))
  : Prop :=
  ¬ (255 < ls.get_box_num batch.2)%nat.

#[global] Instance scored_dec `{External} batch : Decision (scored batch).
Proof. unfold scored. apply _. Defined.

(** One turn of that loop, on the accumulator alone. *)
Definition page_step `{External} (order_predictions : list OrderResult)
    (batch : list Image * list (list (bbox Q))) : list OrderResult :=
  order_predictions ++
    (if decide (255 < ls.get_box_num batch.2)%nat
     then py_last_slice ls.batch_size order_predictions
     else batch_ordering batch.1 batch.2).

(** The batch of one page. *)
Definition page_batch `{External} (page : Image * list (bbox Q))
  : list Image * list (list (bbox Q)) :=
  ([page.1], [page.2]).

(** A string without the separator ['_'] of the join keys. *)
Fixpoint no_underscore (s : string) : Prop :=
  match s with
  | EmptyString => True
  | String c s' => c ≠ "_"%char ∧ no_underscore s'
  end.

(** How many times a character occurs in a string. *)
Fixpoint count_char (c : ascii) (s : string) : nat :=
  match s with
  | EmptyString => 0
  | String c' s' => (if Ascii.eqb c' c then 1 else 0) + count_char c s'
  end.

(** A block [crop_images] crops: its page has an image and fewer than 255
    rows in the layout table. *)
Definition cropped_row `{External} (images : list Image)
    (layout_table : list surya_row) (r : surya_row) : Prop :=
  (page_idx (s_row r) < length images)%nat ∧
  (length (filter (λ r', page_idx (s_row r') = page_idx (s_row r))
                  layout_table) < 255)%nat.

#[global] Instance cropped_row_dec `{External} images layout_table r :
  Decision (cropped_row images layout_table r).
Proof. unfold cropped_row. apply _. Defined.

(** * Properties *)

(** ** Coordinate rescaling *)

Section rescale.










End rescale.

(** ** The sort of the layout table *)

Section sort_values.

#[local] Instance key_le_trans : Transitive ls.key_le.
Proof. intros a b c. unfold ls.key_le. lia. Qed.

#[local] Instance key_le_total : Total ls.key_le.
Proof. intros a b. unfold ls.key_le. lia. Qed.

Lemma insert_row_perm r l : ls.insert_row r l ≡ₚ r :: l.
Proof.
  induction l as [|r' l IH]; simpl; [done|].
  destruct (decide (ls.key_le r r')); [done|].
  rewrite IH. apply Permutation_swap.
Qed.

Lemma sort_values_perm l : ls.sort_values l ≡ₚ l.
Proof.
  induction l as [|r l IH]; simpl; [done|].
  by rewrite insert_row_perm, IH.
Qed.

Lemma insert_row_sorted r l :
  StronglySorted ls.key_le l → StronglySorted ls.key_le (ls.insert_row r l).
Proof.
  induction 1 as [|r' l Hl IH Hall]; simpl.
  - repeat constructor.
  - destruct (decide (ls.key_le r r')) as [Hle|Hnle].
    + constructor; [by constructor|].
      constructor; [done|].
      eapply Forall_impl; [exact Hall|]. intros c Hc. by etrans.
    + constructor; [done|].
      rewrite insert_row_perm. constructor; [|done].
      by destruct (total ls.key_le r r').
Qed.

Lemma sort_values_sorted l : StronglySorted ls.key_le (ls.sort_values l).
Proof.
  induction l; simpl; [constructor|]. by apply insert_row_sorted.
Qed.

(** In a sorted frame, a row placed earlier has the smaller key. *)
Lemma sorted_lookup_le (l : list ordered_row) i j a b :
  StronglySorted ls.key_le l →
  l !! i = Some a → l !! j = Some b → (i < j)%nat → ls.key_le a b.
Proof.
  intros Hs. revert i j. induction Hs as [|r l Hl IH Hall]; intros i j Hi Hj Hij.
  - by rewrite lookup_nil in Hi.
  - destruct j as [|j]; [lia|]. simpl in Hj.
    destruct i as [|i]; simpl in Hi.
    + injection Hi as ->. rewrite Forall_forall in Hall.
      apply Hall. by eapply list_elem_of_lookup_2.
    + apply (IH i j); [done|done|lia].
Qed.

Lemma insert_row_stable k r l :
  filter (has_key k) (ls.insert_row r l) = filter (has_key k) (r :: l).
Proof.
  induction l as [|r' l IH]; simpl; [done|].
  destruct (decide (ls.key_le r r')) as [Hle|Hnle]; [done|].
  rewrite (filter_cons _ r'), IH, !filter_cons.
  destruct (decide (has_key k r)) as [[Hr1 Hr2]|];
    destruct (decide (has_key k r')) as [[Hr1' Hr2']|]; try done.
  exfalso. apply Hnle. unfold ls.key_le. lia.
Qed.

Lemma sort_values_stable k l :
  filter (has_key k) (ls.sort_values l) = filter (has_key k) l.
Proof.
  induction l as [|r l IH]; simpl; [done|].
  by rewrite insert_row_stable, !filter_cons, IH.
Qed.

End sort_values.

(** ** The join of the layout frame with the order frame *)

Section order_layout.

Lemma foldl_insert_Some {V} (l : list (string * V)) (m : gmap string V) k v :
  foldl (λ m kv, <[kv.1 := kv.2]> m) m l !! k = Some v →
  m !! k = Some v ∨ (k, v) ∈ l.
Proof.
  revert m. induction l as [|[k' v'] l IH]; intros m; simpl; [auto|].
  intros [Hm|Hin]%IH.
  - rewrite lookup_insert in Hm. simpl in Hm.
    destruct (decide (k' = k)) as [->|]; [|auto].
    injection Hm as ->. right. apply list_elem_of_here.
  - right. by apply list_elem_of_further.
Qed.

Lemma foldl_insert_None {V} (l : list (string * V)) (m : gmap string V) k :
  foldl (λ m kv, <[kv.1 := kv.2]> m) m l !! k = None →
  m !! k = None ∧ k ∉ l.*1.
Proof.
  revert m. induction l as [|[k' v'] l IH]; intros m; simpl.
  - intros ?. split; [done|]. apply not_elem_of_nil.
  - intros [Hm Hin]%IH. rewrite lookup_insert in Hm. simpl in Hm.
    destruct (decide (k' = k)) as [->|Hne]; [done|].
    split; [done|]. rewrite not_elem_of_cons. auto.
Qed.

Lemma zip_fmap_same {A B C} (f : A → B) (g : A → C) (l : list A) :
  zip (f <$> l) (g <$> l) = (λ x, (f x, g x)) <$> l.
Proof. induction l; simpl; [done|]. by f_equal. Qed.

(** A position found in the map is the position of an order row with
    that key. *)
Lemma position_map_Some order_df k p :
  ls.position_map order_df !! k = Some p →
  ∃ o, o ∈ order_df ∧ ls.order_unique_id o = k ∧ o_position o = p.
Proof.
  unfold ls.position_map, py_dict_zip. rewrite zip_fmap_same.
  intros [Hm|Hin]%foldl_insert_Some; [by rewrite lookup_empty in Hm|].
  apply list_elem_of_fmap in Hin as (o & Heq & Ho).
  injection Heq as -> ->. eauto.
Qed.

(** A key absent from the map is the key of no order row. *)
Lemma position_map_None order_df k :
  ls.position_map order_df !! k = None →
  ∀ o, o ∈ order_df → ls.order_unique_id o ≠ k.
Proof.
  unfold ls.position_map, py_dict_zip. rewrite zip_fmap_same.
  intros [_ Hk]%foldl_insert_None o Ho Heq. apply Hk.
  rewrite <- list_fmap_compose. apply list_elem_of_fmap. by exists o.
Qed.

Lemma fmap_bind_comm {A B C} (g : B → C) (f : A → list B) (l : list A) :
  g <$> (l ≫= f) = l ≫= (λ x, g <$> f x).
Proof.
  induction l as [|x l IH]; [done|].
  by rewrite !bind_cons, fmap_app, IH.
Qed.

Lemma elem_of_enumerate {A} (l : list A) i x :
  (i, x) ∈ enumerate l ↔ l !! i = Some x.
Proof.
  unfold enumerate. rewrite list_elem_of_lookup. split.
  - intros (n & (y & Hy & Heq)%list_lookup_imap_Some). by injection Heq as -> ->.
  - intros Hi. exists i. apply list_lookup_imap_Some. eauto.
Qed.

Lemma NoDup_enumerate {A} (l : list A) : NoDup (enumerate l).
Proof.
  apply (NoDup_fmap_1 fst). unfold enumerate.
  rewrite fmap_imap.
  rewrite (imap_ext _ (λ j _, j)) by done.
  rewrite (imap_seq_0 l (λ j, j)), list_fmap_id. apply NoDup_seq.
Qed.

End order_layout.

Section layout_table.

Lemma elem_of_detector_blocks preds p j b lab :
  (p, j, b, lab) ∈ detector_blocks preds ↔
  ∃ page block, preds !! p = Some page ∧ lr_bboxes page !! j = Some block ∧
                b = lb_bbox block ∧ lab = lb_label block.
Proof.
  unfold detector_blocks. rewrite list_elem_of_bind. split.
  - intros ([p' page] & Hin & Hp%elem_of_enumerate).
    apply list_elem_of_bind in Hin as ([j' block] & Hin & Hj%elem_of_enumerate).
    apply list_elem_of_singleton in Hin. injection Hin as -> -> -> ->.
    by exists page, block.
  - intros (page & block & Hp & Hj & -> & ->).
    exists (p, page). rewrite elem_of_enumerate. split; [|done].
    apply list_elem_of_bind. exists (j, block).
    rewrite elem_of_enumerate, list_elem_of_singleton. done.
Qed.

(** No two of the detector's blocks share a page index and block index. *)
Lemma NoDup_detector_block_ids preds :
  NoDup ((λ b, (b.1.1.1, b.1.1.2)) <$> detector_blocks preds).
Proof.
  apply NoDup_fmap_2_strong.
  - intros [[[p j] b] lab] [[[p' j'] b'] lab'] Hin Hin' Heq. simpl in Heq.
    injection Heq as <- <-.
    apply elem_of_detector_blocks in Hin as (page & block & Hp & Hj & -> & ->).
    apply elem_of_detector_blocks in Hin' as (page' & block' & Hp' & Hj' & -> & ->).
    congruence.
  - unfold detector_blocks. apply NoDup_bind.
    + intros [p page] [p' page'] y Hx Hx' Hy Hy'.
      apply list_elem_of_bind in Hy as ([j block] & Hy & _).
      apply list_elem_of_bind in Hy' as ([j' block'] & Hy' & _).
      apply list_elem_of_singleton in Hy, Hy'. subst y. injection Hy' as <- _ _ _.
      apply elem_of_enumerate in Hx, Hx'. congruence.
    + intros [p page] _. apply NoDup_bind; [| |apply NoDup_enumerate].
      * intros [j block] [j' block'] y Hx Hx' Hy Hy'.
        apply list_elem_of_singleton in Hy, Hy'. subst y. injection Hy' as <- _ _.
        apply elem_of_enumerate in Hx, Hx'. congruence.
      * intros [j block] _. apply NoDup_singleton.
    + apply NoDup_enumerate.
Qed.

(** The layout frame lists the detector's blocks, in detector order. *)
Lemma parse_layout_res_blocks preds layout_df :
  ls.parse_layout_res preds = inr layout_df →
  (λ r, (l_page_idx r, l_block_idx r, l_bbox r, l_label r)) <$> layout_df
  = detector_blocks preds.
Proof.
  unfold ls.parse_layout_res, frame_of.
  set (res_list := _ ≫= _). intros Hres.
  assert (layout_df = res_list) as ->.
  { destruct res_list; [done|]. by injection Hres. }
  unfold res_list, detector_blocks. rewrite fmap_bind_comm.
  apply list_bind_ext; [|done]. intros [p page].
  rewrite fmap_bind_comm. apply list_bind_ext; [|done]. by intros [j block].
Qed.

Lemma order_layout_perm layout_df order_df :
  ls.order_layout layout_df order_df
  ≡ₚ ls.attach_position (ls.position_map order_df) <$> layout_df.
Proof. apply sort_values_perm. Qed.

(** Every joined row has the position of an order row with its key, or
    [-1] when no order row has its key. *)
Lemma attach_position_cases order_df (r : layout_row) :
  let r' := ls.attach_position (ls.position_map order_df) r in
  (position r' = -1 ∧
   ∀ o, o ∈ order_df → ls.order_unique_id o ≠ row_key r') ∨
  (∃ o, o ∈ order_df ∧ ls.order_unique_id o = row_key r' ∧
        position r' = o_position o).
Proof.
  simpl. unfold row_key. simpl. fold (ls.layout_unique_id r).
  destruct (ls.position_map order_df !! ls.layout_unique_id r) as [p|] eqn:Hp.
  - right. apply position_map_Some in Hp as (o & ? & ? & ?). eauto.
  - left. split; [done|]. by apply position_map_None.
Qed.

(** C7. Order completeness: the layout table [order_layout] builds from
    the detector's frame has exactly one row for each block the detector
    produced (its rows, read as page index, block index, integer geometry
    and label, are a rearrangement of the detector's blocks, none of which
    repeats), and the position of every row is an integer: the position of
    an order row with the row's key, or [-1] when no order row has that
    key. *)
Theorem order_completeness (preds : list LayoutResult)
    (layout_df : list layout_row) (order_df : list order_row) :
  ls.parse_layout_res preds = inr layout_df →
  let table := ls.order_layout layout_df order_df in
  (λ r, (page_idx r, block_idx r, row_bbox r, label r)) <$> table
    ≡ₚ (λ b, (b.1.1.1, b.1.1.2, tk.int_bbox b.1.2, b.2))
         <$> detector_blocks preds
  ∧ NoDup ((λ r, (page_idx r, block_idx r)) <$> table)
  ∧ Forall (λ r,
      (position r = -1 ∧
       ∀ o, o ∈ order_df → ls.order_unique_id o ≠ row_key r) ∨
      (∃ o, o ∈ order_df ∧ ls.order_unique_id o = row_key r ∧
            position r = o_position o)) table.
Proof.
  intros Hparse table.
  pose proof (order_layout_perm layout_df order_df) as Hperm.
  fold table in Hperm.
  apply parse_layout_res_blocks in Hparse.
  split_and!.
  - rewrite Hperm, <- Hparse, <- !list_fmap_compose. done.
  - rewrite Hperm, <- list_fmap_compose.
    pose proof (NoDup_detector_block_ids preds) as Hnd.
    by rewrite <- Hparse, <- list_fmap_compose in Hnd.
  - rewrite Hperm. apply Forall_fmap, Forall_forall. intros r _.
    apply attach_position_cases.
Qed.

Lemma order_completeness_witness :
  let preds := scenario.detect <$> [scenario.Page (scenario.page_of 5 0) 72] in
  let table := ls.order_layout scenario.five_blocks scenario.three_ranked in
  (λ r, (page_idx r, block_idx r, row_bbox r, label r)) <$> table
    ≡ₚ (λ b, (b.1.1.1, b.1.1.2, tk.int_bbox b.1.2, b.2))
         <$> detector_blocks preds
  ∧ NoDup ((λ r, (page_idx r, block_idx r)) <$> table)
  ∧ Forall (λ r,
      (position r = -1 ∧
       ∀ o, o ∈ scenario.three_ranked → ls.order_unique_id o ≠ row_key r) ∨
      (∃ o, o ∈ scenario.three_ranked ∧ ls.order_unique_id o = row_key r ∧
            position r = o_position o)) table.
Proof.
  apply (order_completeness
           (scenario.detect <$> [scenario.Page (scenario.page_of 5 0) 72])
           scenario.five_blocks scenario.three_ranked).
  reflexivity.
Defined.

End layout_table.

(** ** Running the stages: what a successful run went through *)

Section stages.
Context `{External}.

Lemma run_surya_inv images w table w' :
  ls.run_surya images w = (inr table, w') →
  ∃ layout_df order_df,
    ls.parse_layout_res (ls.do_layout images) = inr layout_df ∧
    table = ls.order_layout layout_df order_df.
Proof.
  unfold ls.run_surya, bind, lift, ret. intros Hrun.
  destruct (ls.parse_layout_res (ls.do_layout images)) as [|layout_df]; [done|].
  destruct (py_max _) as [|largest]; [done|].
  match type of Hrun with context [?f images ?b w] =>
    destruct (f images b w) as [[|preds] w1] end; [done|].
  destruct (ls.parse_order_res preds) as [|order_df]; [done|].
  injection Hrun as <- <-. eauto.
Qed.

Lemma get_surya_df_inv pdf ppi w surya_df w' :
  PdfParser.get_surya_df pdf ppi w = (inr surya_df, w') →
  ∃ layout_df order_df,
    ls.parse_layout_res (ls.do_layout (pdfbytes2imgs pdf ppi)) = inr layout_df ∧
    surya_df = (λ r, {| s_row := r; layout_ppi := ppi |})
                 <$> ls.order_layout layout_df order_df.
Proof.
  unfold PdfParser.get_surya_df, bind, ret. intros Hrun.
  destruct (ls.run_surya _ w) as [[|table] w1] eqn:Hs; [done|].
  injection Hrun as <- <-.
  apply run_surya_inv in Hs as (layout_df & order_df & ? & ->). eauto.
Qed.

(** [run_ocr] hands the layout frame back with every box rescaled. *)
Lemma run_ocr_inv images lt ippi lppi lang buffer path w ocr_df lt' w' :
  ot.run_ocr images lt ippi lppi lang buffer path w = (inr (ocr_df, lt'), w') →
  ∃ scale, py_truediv ippi lppi = inr scale ∧
           lt' = ot.scale_row scale buffer <$> lt.
Proof.
  unfold ot.run_ocr, bind, lift, ret, ot.preprocess_layout_df, ot.crop_images.
  intros Hrun.
  destruct lt as [|r lt]; [done|].
  destruct (py_truediv ippi lppi) as [|scale]; [done|].
  exists scale. split; [done|].
  match type of Hrun with context [frame_of "image" ?l] =>
    destruct (frame_of "image" l) as [|image_df] end; [done|].
  destruct (ot.tesseract_ocr_multi _ _ _ _ w) as [[|ocr_res] w1]; [done|].
  destruct (ot.assign_text _ _) as [|ocr_df']; [done|].
  by injection Hrun as <- <- <-.
Qed.

Lemma parse_at_inv pdf lang surya_ppi ocr_ppi temp_name w merged w' :
  PdfParser.parse_at pdf lang surya_ppi ocr_ppi temp_name w = (inr merged, w') →
  ∃ layout_df order_df scale ocr_df,
    ls.parse_layout_res (ls.do_layout (pdfbytes2imgs pdf surya_ppi))
      = inr layout_df ∧
    py_truediv ocr_ppi surya_ppi = inr scale ∧
    merged = PdfParser.select_columns <$>
      PdfParser._merge_layout_ocr
        (ot.scale_row scale (PdfParser.buffer_size surya_ppi ocr_ppi) <$>
           ((λ r, {| s_row := r; layout_ppi := surya_ppi |}) <$>
              ls.order_layout layout_df order_df))
        ocr_df.
Proof.
  unfold PdfParser.parse_at, bind, ret. intros Hrun.
  destruct (PdfParser.get_surya_df _ _ w) as [[|surya_df] w1] eqn:Hs; [done|].
  unfold PdfParser.get_ocr_df in Hrun.
  destruct (ot.run_ocr _ _ _ _ _ _ _ w1) as [[|[ocr_df lt']] w2] eqn:Ho; [done|].
  injection Hrun as <- <-.
  apply get_surya_df_inv in Hs as (layout_df & order_df & Hl & ->).
  apply run_ocr_inv in Ho as (scale & Hd & ->).
  by exists layout_df, order_df, scale, ocr_df.
Qed.

End stages.

(** ** Row order of the layout table and of the final table *)

Section row_order.

Lemma unranked_first (table : list ordered_row) i j r1 r2 :
  StronglySorted ls.key_le table →
  table !! i = Some r1 → table !! j = Some r2 →
  page_idx r1 = page_idx r2 → position r1 = -1 → 0 ≤ position r2 →
  (i < j)%nat.
Proof.
  intros Hs Hi Hj Hpage Hneg Hpos.
  destruct (decide (i < j)%nat) as [|Hge]; [done|]. exfalso.
  destruct (decide (i = j)) as [->|Hne].
  - rewrite Hi in Hj. injection Hj as ->. lia.
  - pose proof (sorted_lookup_le table j i r2 r1 Hs Hj Hi ltac:(lia)) as Hle.
    unfold ls.key_le in Hle. lia.
Qed.

Lemma merged_of_sorted (table : list ordered_row) scale buffer ppi ocr_df :
  StronglySorted ls.key_le table →
  StronglySorted merged_key_le
    (PdfParser.select_columns <$>
       PdfParser._merge_layout_ocr
         (ot.scale_row scale buffer <$>
            ((λ r, {| s_row := r; layout_ppi := ppi |}) <$> table))
         ocr_df).
Proof.
  intros Hs. unfold PdfParser._merge_layout_ocr.
  rewrite <- !list_fmap_compose.
  eapply StronglySorted_fmap; [|exact Hs].
  intros a b Hab. exact Hab.
Qed.

(** C6. Sort order: the layout table is sorted ascending by
    [(page_idx, position)]; within a page every row of position [-1] comes
    before every row of a ranked position ([>= 0]); rows of one key keep
    the order the detector gave them; five blocks of one page that receive
    the positions [1, -1, 0, -1, 2] come out as blocks 1, 3 (the two [-1]
    rows in block order), then 2, 0, 4 (positions 0, 1, 2); and the table
    [parse_pdf] returns is sorted in the same way. *)
Theorem sort_order :
  (∀ layout_df order_df,
     let table := ls.order_layout layout_df order_df in
     StronglySorted ls.key_le table ∧
     (∀ i j r1 r2,
        table !! i = Some r1 → table !! j = Some r2 →
        page_idx r1 = page_idx r2 → position r1 = -1 → 0 ≤ position r2 →
        (i < j)%nat) ∧
     (∀ k, filter (has_key k) table
           = filter (has_key k)
               (ls.attach_position (ls.position_map order_df) <$> layout_df)))
  ∧ (λ r, (block_idx r, position r))
      <$> ls.order_layout scenario.five_blocks scenario.three_ranked
    = [(1%nat, -1); (3%nat, -1); (2%nat, 0); (0%nat, 1); (4%nat, 2)]
  ∧ (∀ (E : External) pdf lang ppi temp_name w merged w',
       PdfParser.parse_pdf pdf lang ppi temp_name w = (inr merged, w') →
       StronglySorted merged_key_le merged).
Proof.
  split_and!.
  - intros layout_df order_df table.
    assert (Hs : StronglySorted ls.key_le table) by apply sort_values_sorted.
    split_and!; [done| |].
    + intros i j r1 r2. by apply unranked_first.
    + intros k. apply sort_values_stable.
  - vm_compute. reflexivity.
  - intros E pdf lang ppi temp_name w merged w' Hrun.
    change (PdfParser.parse_pdf pdf lang ppi temp_name)
      with (PdfParser.parse_at pdf lang ppi ppi temp_name) in Hrun.
    apply parse_at_inv in Hrun as (layout_df & order_df & scale & ocr_df & _ & _ & ->).
    apply merged_of_sorted, sort_values_sorted.
Qed.

Lemma sort_order_witness :
  StronglySorted merged_key_le scenario.doc_3_parsed.
Proof.
  pose (E := scenario.toy scenario.one_text_per_frame).
  apply (proj2 (proj2 sort_order) E scenario.doc_3 "eng" 72 "sample"
           scenario.empty_world scenario.doc_3_parsed
           (PdfParser.parse_pdf (H := E) scenario.doc_3 "eng" 72 "sample"
                                scenario.empty_world).2).
  vm_compute. reflexivity.
Defined.

End row_order.

(** ** The geometry column from the detector to the final table *)

Section bbox_frame.

Lemma py_int_inject_Z (z : Z) : py_int (inject_Z z) = z.
Proof. unfold py_int. simpl. apply Z.quot_1_r. Qed.

(** On integer coordinates [add_unique_id] leaves the geometry as it is. *)
Lemma int_bbox_integral (x y w h : Z) :
  tk.int_bbox (inject_Z x, inject_Z y, inject_Z w, inject_Z h) = (x, y, w, h).
Proof. unfold tk.int_bbox. by rewrite !py_int_inject_Z. Qed.






End bbox_frame.

(** ** The OCR invocation *)

Section ocr_invocation.
Context `{External}.

(** The invocation on a batch that is not empty, case by case on what the
    process launches did. *)
Lemma tesseract_ocr_multi_run cmd imgs lang temp_path w :
  imgs ≠ [] →
  let params := ot.tesseract_params cmd temp_path lang in
  let ran := engine_launches (launches w) params (Some imgs) in
  ot.tesseract_ocr_multi cmd imgs lang temp_path w =
    match engine_stdout (launches w) params (Some imgs) with
    | inl e => (inl e, after_ocr w temp_path imgs ran false)
    | inr None =>
        (inr (replicate (length imgs) ""), after_ocr w temp_path imgs ran false)
    | inr (Some text) =>
        (inr (py_split form_feed text), after_ocr w temp_path imgs ran true)
    end.
Proof.
  intros Himgs params ran. destruct imgs as [|img rest]; [done|].
  unfold ot.tesseract_ocr_multi, bind, save_all, try_except, run_process, ret.
  unfold ran, engine_stdout, engine_launches, after_ocr, os_remove.
  fold params. cbn [files launches order_calls].
  rewrite !lookup_insert_eq.
  destruct (subprocess_run (launches w) params _) as [e1|[text|]];
    cbn [files launches order_calls]; rewrite ?lookup_insert_eq; [|done..].
  destruct (subprocess_run (S (launches w)) params _) as [e2|[text|]];
    cbn [files launches order_calls]; rewrite ?lookup_insert_eq; done.
Qed.

Lemma py_split_nonempty sep s : py_split sep s ≠ [].
Proof.
  destruct s as [|c s]; simpl; [done|].
  destruct (Ascii.eqb c sep); [done|]. by destruct (py_split sep s).
Qed.

Lemma assign_text_lookup image_df ocr_res ocr_df :
  ot.assign_text image_df ocr_res = inr ocr_df →
  length ocr_df = length image_df ∧
  ∀ i r, image_df !! i = Some r →
    ∃ segment, ocr_res !! i = Some segment ∧
      ocr_df !! i = Some {| t_page_idx := i_page_idx r;
                            t_block_idx := i_block_idx r;
                            t_text := segment |}.
Proof.
  unfold ot.assign_text. destruct (decide _) as [Hlen|]; [|done].
  intros [= <-]. split.
  - rewrite length_zip_with. lia.
  - intros i r Hr.
    destruct (lookup_lt_is_Some_2 ocr_res i) as [segment Hseg].
    { rewrite Hlen. by eapply lookup_lt_Some. }
    exists segment. split; [done|].
    rewrite lookup_zip_with, Hr. simpl. by rewrite Hseg.
Qed.

(** C4. OCR alignment: [run_ocr] has cropped [n] images and the OCR process
    gave an output (at its first launch, or at the second after the first
    raised).  If the output splits at form feeds into exactly [n] segments,
    [run_ocr] returns [n] rows and row [i] has the page index and block
    index of image [i] and segment [i] as its text.  If it splits into
    another number of segments, [run_ocr] raises: for a batch that is not
    empty, the exception of the failed column assignment. *)
Theorem ocr_alignment images layout_table image_ppi layout_ppi lang
    buffer_size temp_path w lt1 image_df lt' text :
  ot.preprocess_layout_df layout_table = inr lt1 →
  ot.crop_images images lt1 image_ppi layout_ppi buffer_size
    = inr (image_df, lt') →
  engine_stdout (launches w) (ot.tesseract_params "tesseract" temp_path lang)
                (Some (i_image <$> image_df)) = inr (Some text) →
  let segments := py_split form_feed text in
  let run := ot.run_ocr images layout_table image_ppi layout_ppi lang
                        buffer_size temp_path w in
  (length segments = length image_df →
   ∃ ocr_df, run.1 = inr (ocr_df, lt') ∧
     length ocr_df = length image_df ∧
     ∀ i r, image_df !! i = Some r →
       ∃ segment, segments !! i = Some segment ∧
         ocr_df !! i = Some {| t_page_idx := i_page_idx r;
                               t_block_idx := i_block_idx r;
                               t_text := segment |})
  ∧ (length segments ≠ length image_df →
     ∃ e, run.1 = inl e ∧
       (image_df ≠ [] →
        e = Exception "Error in adding OCR results to DataFrame")).
Proof.
  intros Hpre Hcrop Hout segments run.
  unfold run, ot.run_ocr, bind, lift, ret. rewrite Hpre, Hcrop.
  destruct image_df as [|r0 image_df].
  { split; [|by eexists].
    intros Hlen. by destruct (py_split_nonempty form_feed text);
      apply nil_length_inv. }
  cbn [frame_of].
  rewrite tesseract_ocr_multi_run by done. rewrite Hout.
  fold segments.
  destruct (ot.assign_text (r0 :: image_df) segments) as [e|ocr_df] eqn:Hassign.
  - split.
    + intros Hlen. unfold ot.assign_text in Hassign.
      by destruct (decide _).
    + intros _. exists e. split; [done|]. intros _.
      unfold ot.assign_text in Hassign. destruct (decide _); [done|].
      by injection Hassign.
  - split.
    + intros _. exists ocr_df. split; [done|].
      by apply assign_text_lookup.
    + intros Hlen. unfold ot.assign_text in Hassign.
      destruct (decide _); [done|]. done.
Qed.

(** Where the invocation reaches [os.remove], the temporary file is gone
    when it returns. *)
Lemma temp_file_removed_on_output cmd imgs lang temp_path w text :
  imgs ≠ [] →
  engine_stdout (launches w) (ot.tesseract_params cmd temp_path lang)
                (Some imgs) = inr (Some text) →
  files (ot.tesseract_ocr_multi cmd imgs lang temp_path w).2 !! temp_path = None.
Proof.
  intros Himgs Hout. rewrite tesseract_ocr_multi_run, Hout by done.
  apply lookup_delete_eq.
Qed.

(** Where both launches raise, the exception leaves the invocation and the
    temporary file stays on disk. *)
Lemma temp_file_left_on_error cmd imgs lang temp_path w e :
  imgs ≠ [] →
  engine_stdout (launches w) (ot.tesseract_params cmd temp_path lang)
                (Some imgs) = inl e →
  let run := ot.tesseract_ocr_multi cmd imgs lang temp_path w in
  run.1 = inl e ∧ files run.2 !! temp_path = Some imgs.
Proof.
  intros Himgs Hout. simpl. rewrite tesseract_ocr_multi_run, Hout by done.
  split; [done|]. apply lookup_insert_eq.
Qed.

(** Where the process completes without a captured output, the early
    [return] leaves the temporary file on disk. *)
Lemma temp_file_left_without_output cmd imgs lang temp_path w :
  imgs ≠ [] →
  engine_stdout (launches w) (ot.tesseract_params cmd temp_path lang)
                (Some imgs) = inr None →
  let run := ot.tesseract_ocr_multi cmd imgs lang temp_path w in
  run.1 = inr (replicate (length imgs) "") ∧
  files run.2 !! temp_path = Some imgs.
Proof.
  intros Himgs Hout. simpl. rewrite tesseract_ocr_multi_run, Hout by done.
  split; [done|]. apply lookup_insert_eq.
Qed.

(** C10. Empty batch: when [crop_images] yields no sub-image, [run_ocr]
    returns no table: it raises, at the access to the [image] column of the
    frame without rows, and leaves the world as it was; and the OCR
    invocation itself, [tesseract_ocr_multi], given the empty batch, raises
    the [IndexError] of [imgs[0]] before it writes a file or launches a
    process. *)
Theorem empty_batch_fails images layout_table image_ppi layout_ppi lang
    buffer_size temp_path w lt1 lt' :
  ot.preprocess_layout_df layout_table = inr lt1 →
  ot.crop_images images lt1 image_ppi layout_ppi buffer_size = inr ([], lt') →
  ot.run_ocr images layout_table image_ppi layout_ppi lang buffer_size
             temp_path w = (inl (KeyError "image"), w)
  ∧ ot.tesseract_ocr_multi "tesseract" [] lang temp_path w
    = (inl IndexError, w).
Proof.
  intros Hpre Hcrop. split; [|done].
  unfold ot.run_ocr, bind, lift. by rewrite Hpre, Hcrop.
Qed.

End ocr_invocation.

Section ocr_scenarios.

Lemma ocr_alignment_witness :
  let run := scenario.prints scenario.three_texts in
  let cropped := scenario.crops_of run scenario.doc_3 72 in
  let segments := py_split form_feed scenario.three_texts in
  let ocr := ot.run_ocr (H := scenario.toy run)
               (scenario.ocr_images_of scenario.doc_3 72)
               (scenario.surya_of run scenario.doc_3 72)
               72 72 "eng" 0 "temp/sample.tiff" scenario.empty_world in
  (length segments = length cropped.1 →
   ∃ ocr_df, ocr.1 = inr (ocr_df, cropped.2) ∧
     length ocr_df = length cropped.1 ∧
     ∀ i r, cropped.1 !! i = Some r →
       ∃ segment, segments !! i = Some segment ∧
         ocr_df !! i = Some {| t_page_idx := i_page_idx r;
                               t_block_idx := i_block_idx r;
                               t_text := segment |})
  ∧ (length segments ≠ length cropped.1 →
     ∃ e, ocr.1 = inl e ∧
       (cropped.1 ≠ [] →
        e = Exception "Error in adding OCR results to DataFrame")).
Proof.
  intros run cropped segments ocr.
  apply (ocr_alignment (H := scenario.toy run)
           (scenario.ocr_images_of scenario.doc_3 72)
           (scenario.surya_of run scenario.doc_3 72)
           72 72 "eng" 0 "temp/sample.tiff" scenario.empty_world
           (scenario.surya_of run scenario.doc_3 72)
           cropped.1 cropped.2 scenario.three_texts);
    vm_compute; reflexivity.
Defined.

(** Three crops and three segments: row [i] carries segment [i]. *)
Lemma three_images_three_segments :
  let run := scenario.prints scenario.three_texts in
  (ot.run_ocr (H := scenario.toy run)
     (scenario.ocr_images_of scenario.doc_3 72)
     (scenario.surya_of run scenario.doc_3 72)
     72 72 "eng" 0 "temp/sample.tiff" scenario.empty_world).1
  = inr ([ {| t_page_idx := 0; t_block_idx := 2; t_text := "t" |};
           {| t_page_idx := 0; t_block_idx := 1; t_text := "t" |};
           {| t_page_idx := 0; t_block_idx := 0; t_text := "t" |} ],
         (scenario.crops_of run scenario.doc_3 72).2).
Proof. vm_compute. reflexivity. Qed.

(** Three crops and two segments: the run raises. *)
Lemma three_images_two_segments :
  let run := scenario.prints scenario.two_texts in
  (ot.run_ocr (H := scenario.toy run)
     (scenario.ocr_images_of scenario.doc_3 72)
     (scenario.surya_of run scenario.doc_3 72)
     72 72 "eng" 0 "temp/sample.tiff" scenario.empty_world).1
  = inl (Exception "Error in adding OCR results to DataFrame").
Proof. vm_compute. reflexivity. Qed.

Lemma empty_batch_fails_witness :
  let run := scenario.one_text_per_frame in
  ot.run_ocr (H := scenario.toy run)
    (scenario.ocr_images_of scenario.doc_255 72)
    (scenario.surya_of run scenario.doc_255 72)
    72 72 "eng" 0 "temp/sample.tiff" scenario.empty_world
  = (inl (KeyError "image"), scenario.empty_world)
  ∧ ot.tesseract_ocr_multi (H := scenario.toy run) "tesseract" [] "eng"
      "temp/sample.tiff" scenario.empty_world
    = (inl IndexError, scenario.empty_world).
Proof.
  intros run.
  apply (empty_batch_fails (H := scenario.toy run)
           (scenario.ocr_images_of scenario.doc_255 72)
           (scenario.surya_of run scenario.doc_255 72)
           72 72 "eng" 0 "temp/sample.tiff" scenario.empty_world
           (scenario.surya_of run scenario.doc_255 72)
           (scenario.crops_of run scenario.doc_255 72).2);
    vm_compute; reflexivity.
Defined.

(** C5 fails on the code.  With an OCR process that cannot be launched, the
    invocation propagates the error and the temporary file it wrote is
    still on disk; with a process that completes without a captured output,
    the invocation returns its empty strings and the file is still on disk.
    Only a run that reaches [os.remove] leaves no file. *)
Lemma temp_file_left_behind :
  let img := scenario.Crop (scenario.Page [] 72) (0, 0, 8, 8) in
  let path := "temp/sample.tiff" in
  let failed :=
    ot.tesseract_ocr_multi (H := scenario.toy scenario.unavailable)
      "tesseract" [img] "eng" path scenario.empty_world in
  let silent :=
    ot.tesseract_ocr_multi (H := scenario.toy scenario.prints_nothing)
      "tesseract" [img] "eng" path scenario.empty_world in
  let normal :=
    ot.tesseract_ocr_multi (H := scenario.toy (scenario.prints "t"))
      "tesseract" [img] "eng" path scenario.empty_world in
  (failed.1 = inl OSError ∧ files failed.2 !! path = Some [img]) ∧
  (silent.1 = inr [""] ∧ files silent.2 !! path = Some [img]) ∧
  (normal.1 = inr ["t"] ∧ files normal.2 !! path = None).
Proof. vm_compute. done. Qed.

End ocr_scenarios.

(** ** The page-at-a-time ordering strategy *)

Section degraded_path.
Context `{External}.

Lemma py_batches_1 {A} (l : list A) : py_batches 1 l = (λ x, [x]) <$> l.
Proof.
  unfold py_batches, py_range_step.
  replace ((length l + 1 - 1) / 1)%nat with (length l)
    by (rewrite Nat.div_1_r; lia).
  rewrite <- list_fmap_compose.
  induction l as [|x l IH]; [done|].
  cbn [length seq fmap list_fmap]. f_equal.
  rewrite <- IH, <- fmap_S_seq, <- list_fmap_compose.
  apply list_fmap_ext. intros _ i _. simpl. by rewrite !Nat.mul_1_r.
Qed.

Lemma page_batches images bboxes :
  zip (py_batches ls.batch_size images) (py_batches ls.batch_size bboxes)
  = page_batch <$> zip images bboxes.
Proof.
  unfold ls.batch_size. rewrite !py_batches_1.
  revert bboxes. induction images as [|i images IH]; intros [|b bboxes];
    simpl; [done..|]. by rewrite IH.
Qed.

Lemma log_calls_nil w : log_calls w [] = w.
Proof. destruct w. unfold log_calls. simpl. by rewrite app_nil_r. Qed.

Lemma log_calls_app w calls calls' :
  log_calls (log_calls w calls) calls' = log_calls w (calls ++ calls').
Proof. unfold log_calls. simpl. by rewrite app_assoc. Qed.

(** The loop returns the fold of [page_step] and logs the scored batches. *)
Lemma order_batches_run batches order_predictions w :
  ls.order_batches batches order_predictions w
  = (inr (foldl page_step order_predictions batches),
     log_calls w (filter scored batches)).
Proof.
  revert order_predictions w.
  induction batches as [|[image_batch bbox_batch] batches IH];
    intros order_predictions w.
  - simpl. by rewrite log_calls_nil.
  - cbn [ls.order_batches foldl]. unfold bind, page_step. cbn [fst snd].
    destruct (decide (255 < ls.get_box_num bbox_batch)%nat) as [Hover|Hok].
    + unfold ret. rewrite IH. by rewrite filter_cons_False by (by intros []).
    + unfold ls.do_order, call_ordering. rewrite IH.
      rewrite filter_cons_True by done.
      f_equal. apply (log_calls_app w [_]).
Qed.

Lemma do_order_by_page_run images bboxes w :
  ls.do_order_by_page images bboxes w
  = (inr (foldl page_step [] (page_batch <$> zip images bboxes)),
     log_calls w (filter scored (page_batch <$> zip images bboxes))).
Proof.
  unfold ls.do_order_by_page. by rewrite order_batches_run, page_batches.
Qed.

Lemma scored_page_batch (page : Image * list (bbox Q)) :
  scored (page_batch page) ↔ (length page.2 ≤ 255)%nat.
Proof. unfold scored, page_batch, ls.get_box_num. simpl. lia. Qed.

Lemma filter_fmap_comm {A B} (f : A → B) (P : B → Prop)
    `{∀ y, Decision (P y)} (l : list A) :
  filter P (f <$> l) = f <$> filter (λ x, P (f x)) l.
Proof.
  induction l as [|x l IH]; [done|].
  rewrite fmap_cons, !filter_cons, IH. by destruct (decide (P (f x))).
Qed.


Lemma foldl_page_step_prefix order_predictions batches :
  ∃ rest, foldl page_step order_predictions batches = order_predictions ++ rest.
Proof.
  revert order_predictions. induction batches as [|b batches IH]; intros acc.
  - exists []. simpl. by rewrite app_nil_r.
  - simpl. destruct (IH (page_step acc b)) as [rest ->].
    unfold page_step. rewrite <- app_assoc. eauto.
Qed.

Section one_result_per_page.
(** The ordering model returns one result for a call on one page. *)
Hypothesis one_per_page : ∀ img b, length (batch_ordering [img] [b]) = 1%nat.

Lemma page_step_length order_predictions page :
  order_predictions ≠ [] ∨ scored (page_batch page) →
  length (page_step order_predictions (page_batch page))
  = S (length order_predictions).
Proof.
  intros Hcase. unfold page_step. rewrite length_app.
  destruct (decide _) as [Hover|Hok].
  - destruct Hcase as [Hne|Hs]; [|done].
    unfold py_last_slice, ls.batch_size. rewrite length_drop.
    destruct order_predictions; [done|]. simpl. lia.
  - simpl. rewrite one_per_page. lia.
Qed.

Lemma foldl_page_step_length order_predictions pages :
  order_predictions ≠ [] →
  length (foldl page_step order_predictions (page_batch <$> pages))
  = (length order_predictions + length pages)%nat.
Proof.
  revert order_predictions. induction pages as [|p pages IH]; intros acc Hne.
  - simpl. lia.
  - cbn [fmap list_fmap foldl]. rewrite IH.
    + rewrite page_step_length by auto. simpl. lia.
    + intros Hnil. apply (f_equal length) in Hnil.
      rewrite page_step_length in Hnil by auto. done.
Qed.


End one_result_per_page.


End degraded_path.

Section degraded_scenarios.


(** Pages of 10, 20 and 300 boxes: the list [do_order_by_page] returns has
    the result of page 2 twice. *)
Lemma pages_10_20_300_order_results :
  let E := scenario.toy scenario.one_text_per_frame in
  let images := pdfbytes2imgs (External := E) scenario.doc_10_20_300 72 in
  let bboxes := ls.get_bboxes (ls.do_layout (H := E) images) in
  (ls.do_order_by_page (H := E) images bboxes scenario.empty_world).1
  = inr [ scenario.rank_reversed (scenario.page_of 10 0);
          scenario.rank_reversed (scenario.page_of 20 100);
          scenario.rank_reversed (scenario.page_of 20 100) ].
Proof. vm_compute. reflexivity. Qed.


(** C2 fails on the code.  For a first page of 256 boxes followed by a page
    of 2 boxes, [do_order_by_page] returns one result for the two pages:
    nothing is emitted for the first page.  [parse_order_res] then files the
    result of the second page under page index 0, so in the layout table
    the two boxes of the second page, which the model ranked, are at
    position [-1], and the two boxes of the first page that sit where they
    sit carry their ranks.  For a document of one page of 300 boxes there
    is no result at all, and [run_surya] raises. *)
Lemma first_page_overflow :
  let E := scenario.toy scenario.one_text_per_frame in
  let images := pdfbytes2imgs (External := E) scenario.doc_256_2 72 in
  let bboxes := ls.get_bboxes (ls.do_layout (H := E) images) in
  (ls.do_order_by_page (H := E) images bboxes scenario.empty_world).1
    = inr [scenario.rank_reversed (scenario.page_of 2 0)]
  ∧ (∃ table,
       (ls.run_surya (H := E) images scenario.empty_world).1 = inr table ∧
       (λ r, (block_idx r, position r))
         <$> filter (λ r, page_idx r = 1%nat) table
       = [(0%nat, -1); (1%nat, -1)] ∧
       (λ r, (block_idx r, position r))
         <$> filter (λ r, page_idx r = 0%nat ∧ position r ≠ -1) table
       = [(1%nat, 0); (0%nat, 1)])
  ∧ (ls.run_surya (H := E)
       (pdfbytes2imgs (External := E) scenario.doc_300 72)
       scenario.empty_world).1
    = inl (KeyError "page_idx").
Proof.
  intros E images bboxes. split_and!; [by vm_compute| |by vm_compute].
  destruct (ls.run_surya (H := E) images scenario.empty_world)
    as [[e|table] w'] eqn:Hrun; [by vm_compute in Hrun|].
  exists table. split; [done|].
  vm_compute in Hrun. injection Hrun as <- _.
  split; vm_compute; reflexivity.
Qed.

End degraded_scenarios.

(** * Further properties of the pipeline *)

(** ** The string keys of the two joins *)

Section join_keys.

Lemma no_underscore_digit (d : N) : pretty_N_char d ≠ "_"%char.
Proof. unfold pretty_N_char. by repeat case_match. Qed.

Lemma no_underscore_pretty_N_go (x : N) (s : string) :
  no_underscore s → no_underscore (pretty_N_go x s).
Proof.
  revert s. induction (N.lt_wf_0 x) as [x _ IH]. intros s Hs.
  destruct (decide (x = 0)%N) as [->|Hx].
  - by rewrite pretty_N_go_0.
  - rewrite pretty_N_go_step by lia. apply IH.
    + apply N.div_lt; lia.
    + split; [apply no_underscore_digit|done].
Qed.

Lemma no_underscore_pretty_N (x : N) : no_underscore (pretty x).
Proof.
  unfold pretty, pretty_N. destruct (decide (x = 0)%N); [by simpl|].
  by apply no_underscore_pretty_N_go.
Qed.

Lemma no_underscore_pretty_nat (x : nat) : no_underscore (pretty x).
Proof. apply no_underscore_pretty_N. Qed.

Lemma no_underscore_pretty_Z (x : Z) : no_underscore (pretty x).
Proof.
  destruct x as [|x|x]; unfold pretty, pretty_Z.
  - by simpl.
  - apply no_underscore_pretty_N.
  - split; [done|]. apply no_underscore_pretty_N.
Qed.

(** Two keys that agree split at their first ['_'] into equal parts. *)
Lemma underscore_split (a a' s s' : string) :
  no_underscore a → no_underscore a' →
  a +:+ "_" +:+ s = a' +:+ "_" +:+ s' → a = a' ∧ s = s'.
Proof.
  revert a'. induction a as [|c a IH]; intros [|c' a'] Ha Ha' Heq; simpl in *.
  - by injection Heq.
  - injection Heq as <- _. by destruct Ha'.
  - injection Heq as -> _. by destruct Ha.
  - injection Heq as -> Heq. destruct Ha as [_ Ha], Ha' as [_ Ha'].
    destruct (IH a' Ha Ha' Heq) as [-> ->]. done.
Qed.

Lemma unique_id_inj (p p' : nat) (b b' : bbox Z) :
  tk.unique_id p b = tk.unique_id p' b' → p = p' ∧ b = b'.
Proof.
  destruct b as [[[x y] w] h], b' as [[[x' y'] w'] h'].
  unfold tk.unique_id. cbn [bbox_coords fmap list_fmap py_join].
  intros Heq.
  apply underscore_split in Heq as [Hp Heq]; try apply no_underscore_pretty_nat.
  apply underscore_split in Heq as [Hx Heq]; try apply no_underscore_pretty_Z.
  apply underscore_split in Heq as [Hy Heq]; try apply no_underscore_pretty_Z.
  apply underscore_split in Heq as [Hw Hh]; try apply no_underscore_pretty_Z.
  apply (inj pretty) in Hp, Hx, Hy, Hw, Hh. by subst.
Qed.

Lemma block_unique_id_inj (p p' j j' : nat) :
  PdfParser.block_unique_id p j = PdfParser.block_unique_id p' j' →
  p = p' ∧ j = j'.
Proof.
  unfold PdfParser.block_unique_id. intros Heq.
  apply underscore_split in Heq as [Hp Hj]; try apply no_underscore_pretty_nat.
  apply (inj pretty) in Hp, Hj. done.
Qed.

End join_keys.

(** ** Exact results of the two joins *)

Section exact_joins.

(** [dict(zip(...))] read at a key gives the value of the last pair with
    that key. *)
Lemma foldl_insert_last {V} (l : list (string * V)) (m : gmap string V) k :
  foldl (λ m kv, <[kv.1 := kv.2]> m) m l !! k
  = match last (filter (λ kv, kv.1 = k) l) with
    | Some kv => Some kv.2
    | None => m !! k
    end.
Proof.
  induction l as [|[k' v'] l IH] using rev_ind; [done|].
  rewrite foldl_snoc, filter_app, lookup_insert. cbn [fst snd].
  rewrite filter_cons, filter_nil. cbn [fst].
  destruct (decide (k' = k)) as [->|Hne].
  - by rewrite last_snoc.
  - by rewrite app_nil_r.
Qed.

Lemma py_dict_zip_last {A V} (key : A → string) (val : A → V) (l : list A) k :
  py_dict_zip (key <$> l) (val <$> l) !! k
  = val <$> last (filter (λ x, key x = k) l).
Proof.
  unfold py_dict_zip. rewrite zip_fmap_same, foldl_insert_last, lookup_empty.
  rewrite (filter_fmap_comm (λ x, (key x, val x)) (λ kv, kv.1 = k)).
  cbn [fst]. rewrite fmap_last. by destruct (last _).
Qed.

(** X1. The position [order_layout] gives a block is the position of the
    last row of the order frame with the same page index and the same
    integer geometry, and [-1] when the order frame has no such row. *)
Theorem order_layout_position (layout_df : list layout_row)
    (order_df : list order_row) :
  Forall (λ r,
    position r
    = default (-1)
        (o_position <$>
           last (filter (λ o, o_page_idx o = page_idx r ∧
                              tk.int_bbox (o_bbox o) = row_bbox r)
                        order_df)))
    (ls.order_layout layout_df order_df).
Proof.
  rewrite order_layout_perm. apply Forall_fmap, Forall_forall. intros r _.
  unfold compose. cbn [ls.attach_position position page_idx row_bbox].
  unfold ls.position_map. rewrite py_dict_zip_last. do 3 f_equal.
  apply list_filter_iff. intros o. unfold ls.order_unique_id, ls.layout_unique_id.
  split.
  - apply unique_id_inj.
  - by intros [-> ->].
Qed.

(** X9. [_merge_layout_ocr] keeps the rows of the layout frame, each once and
    in their order, and gives each the text of the last OCR row with its
    page index and block index, or no text when there is no such row. *)
Theorem merge_layout_ocr_text (layout_df : list surya_row)
    (ocr_df : list ocr_row) :
  let merged := PdfParser._merge_layout_ocr layout_df ocr_df in
  merged.*1 = layout_df ∧
  Forall (λ rt : surya_row * option string,
    rt.2 = t_text <$>
             last (filter (λ o, t_page_idx o = page_idx (s_row rt.1) ∧
                                t_block_idx o = block_idx (s_row rt.1))
                          ocr_df))
    merged.
Proof.
  unfold PdfParser._merge_layout_ocr. split.
  - rewrite <- list_fmap_compose. apply list_fmap_id.
  - apply Forall_fmap, Forall_forall. intros r _. unfold compose. cbn [fst snd].
    unfold PdfParser.text_map. rewrite py_dict_zip_last. do 2 f_equal.
    apply list_filter_iff. intros o. split.
    + apply block_unique_id_inj.
    + by intros [-> ->].
Qed.

Lemma filter_none {A} (P : A → Prop) `{∀ x, Decision (P x)} (l : list A) :
  (∀ x, x ∈ l → ¬ P x) → filter P l = [].
Proof.
  induction l as [|a l IH]; intros Hl; [done|].
  rewrite filter_cons_False by (apply Hl; left).
  apply IH. intros x Hx. apply Hl. by right.
Qed.

(** In a list without two elements of one key, an element is the only one
    with its key. *)
Lemma filter_unique_key {A K} `{EqDecision K} (f : A → K) (l : list A) i x :
  NoDup (f <$> l) → l !! i = Some x → filter (λ y, f y = f x) l = [x].
Proof.
  revert i. induction l as [|a l IH]; intros i Hnd Hi; [done|].
  rewrite fmap_cons in Hnd. apply NoDup_cons in Hnd as [Ha Hnd].
  destruct i as [|i]; simpl in Hi.
  - injection Hi as ->. rewrite filter_cons_True by done. f_equal.
    apply filter_none. intros y Hy Heq. apply Ha. rewrite <- Heq.
    by apply list_elem_of_fmap_2.
  - rewrite filter_cons_False; [by eapply IH|].
    intros Heq. apply Ha. rewrite Heq.
    apply list_elem_of_fmap_2. by eapply list_elem_of_lookup_2.
Qed.

(** Before the sort: row for row, the joined frame has the positions of
    an order frame that lists the same boxes, when no two boxes of a page
    have the same integer geometry. *)
Lemma attach_position_aligned (layout_df : list layout_row)
    (order_df : list order_row) :
  (λ o, (o_page_idx o, o_bbox o)) <$> order_df
    = (λ r, (l_page_idx r, l_bbox r)) <$> layout_df →
  NoDup ((λ r, (l_page_idx r, tk.int_bbox (l_bbox r))) <$> layout_df) →
  (λ r, (page_idx r, row_bbox r, position r))
    <$> (ls.attach_position (ls.position_map order_df) <$> layout_df)
  = (λ o, (o_page_idx o, tk.int_bbox (o_bbox o), o_position o)) <$> order_df.
Proof.
  intros Halign Hnd. rewrite <- list_fmap_compose.
  assert (Hkeys : (λ o, (o_page_idx o, tk.int_bbox (o_bbox o))) <$> order_df
                  = (λ r, (l_page_idx r, tk.int_bbox (l_bbox r))) <$> layout_df).
  { apply (f_equal (fmap (λ pb : nat * bbox Q, (pb.1, tk.int_bbox pb.2)))) in Halign.
    by rewrite <- !list_fmap_compose in Halign. }
  rewrite <- Hkeys in Hnd.
  apply list_eq. intros i.
  rewrite !list_lookup_fmap.
  pose proof (f_equal (λ l, l !! i) Hkeys) as Hi. cbn beta in Hi.
  rewrite !list_lookup_fmap in Hi.
  destruct (layout_df !! i) as [r|], (order_df !! i) as [o|] eqn:Ho;
    try done. simpl in Hi. injection Hi as Hp Hb.
  unfold compose. cbn [fmap option_fmap option_map ls.attach_position
                       page_idx row_bbox position].
  unfold ls.position_map. rewrite py_dict_zip_last.
  rewrite (list_filter_iff _
             (λ y, (o_page_idx y, tk.int_bbox (o_bbox y))
                   = (o_page_idx o, tk.int_bbox (o_bbox o)))).
  - rewrite (filter_unique_key _ order_df i o Hnd Ho). simpl.
    by rewrite Hp, Hb.
  - intros y. unfold ls.order_unique_id, ls.layout_unique_id.
    rewrite <- Hp, <- Hb. split.
    + intros [-> ->]%unique_id_inj. done.
    + by intros [= -> ->].
Qed.

(** X2. When the order frame lists the boxes of the layout frame, row for
    row with the same page index and geometry, and no two boxes of a page
    have the same integer geometry, the layout table gives every box
    exactly the position the order frame has for it: no box is left at
    [-1] and no box takes the position of another. *)
Theorem order_layout_aligned (layout_df : list layout_row)
    (order_df : list order_row) :
  (λ o, (o_page_idx o, o_bbox o)) <$> order_df
    = (λ r, (l_page_idx r, l_bbox r)) <$> layout_df →
  NoDup ((λ r, (l_page_idx r, tk.int_bbox (l_bbox r))) <$> layout_df) →
  (λ r, (page_idx r, row_bbox r, position r))
    <$> ls.order_layout layout_df order_df
  ≡ₚ (λ o, (o_page_idx o, tk.int_bbox (o_bbox o), o_position o)) <$> order_df.
Proof.
  intros Halign Hnd.
  rewrite <- (attach_position_aligned layout_df order_df Halign Hnd).
  apply fmap_Permutation, order_layout_perm.
Qed.

End exact_joins.

(** ** [run_surya]: which strategy runs, what it calls, when it raises *)

Section run_surya.
Context `{External}.

Lemma foldl_max_lt (l : list nat) (a k : nat) :
  (foldl Nat.max a l < k)%nat ↔ (a < k)%nat ∧ Forall (λ n, (n < k)%nat) l.
Proof.
  revert a. induction l as [|n l IH]; intros a; simpl.
  - split; [by intros ?; split|by intros [? _]].
  - rewrite IH, Forall_cons. split.
    + intros [Hm Hl]. split; [lia|]. split; [lia|done].
    + intros [Ha [Hn Hl]]. split; [lia|done].
Qed.

Lemma py_max_lt (l : list nat) (largest k : nat) :
  py_max l = inr largest →
  (largest < k)%nat ↔ Forall (λ n, (n < k)%nat) l.
Proof.
  destruct l as [|n l]; [done|]. intros [= <-].
  by rewrite foldl_max_lt, Forall_cons.
Qed.

(** The frame of the detector's blocks, or the [KeyError] of the frame
    without rows when the detector found no block. *)
Lemma parse_layout_res_cases preds :
  match ls.parse_layout_res preds with
  | inr layout_df =>
      layout_df ≠ [] ∧
      (λ r, (l_page_idx r, l_block_idx r, l_bbox r, l_label r)) <$> layout_df
      = detector_blocks preds
  | inl e => e = KeyError "page_idx" ∧ detector_blocks preds = []
  end.
Proof.
  destruct (ls.parse_layout_res preds) as [e|layout_df] eqn:Hparse.
  - unfold ls.parse_layout_res, frame_of in Hparse.
    unfold detector_blocks.
    revert Hparse. set (res_list := _ ≫= _). intros Hparse.
    assert (Hrows :
      (λ r, (l_page_idx r, l_block_idx r, l_bbox r, l_label r)) <$> res_list
      = enumerate preds ≫= (λ '(page_idx, page),
          enumerate (lr_bboxes page) ≫= (λ '(block_idx, block),
            [(page_idx, block_idx, lb_bbox block, lb_label block)]))).
    { unfold res_list. rewrite fmap_bind_comm.
      apply list_bind_ext; [|done]. intros [p pg].
      rewrite fmap_bind_comm. apply list_bind_ext; [|done]. by intros [j block]. }
    rewrite <- Hrows. destruct res_list as [|r rows]; [|done].
    by injection Hparse as <-.
  - split; [|by apply parse_layout_res_blocks].
    unfold ls.parse_layout_res, frame_of in Hparse.
    intros ->. by destruct (_ ≫= _).
Qed.

(** [run_surya], step by step. *)
Lemma run_surya_run images w :
  let preds := ls.do_layout images in
  let bboxes := ls.get_bboxes preds in
  ls.run_surya images w =
    match ls.parse_layout_res preds with
    | inl e => (inl e, w)
    | inr layout_df =>
        match py_max (length <$> bboxes) with
        | inl e => (inl e, w)
        | inr largest =>
            let '(order_predictions, w') :=
              if decide (largest < 255)%nat
              then (batch_ordering images bboxes,
                    log_calls w [(images, bboxes)])
              else (foldl page_step [] (page_batch <$> zip images bboxes),
                    log_calls w
                      (@filter _ _ _ scored scored_dec
                               (page_batch <$> zip images bboxes))) in
            match ls.parse_order_res order_predictions with
            | inl e => (inl e, w')
            | inr order_df => (inr (ls.order_layout layout_df order_df), w')
            end
        end
    end.
Proof.
  intros preds bboxes. unfold ls.run_surya, bind, lift, ret.
  fold preds bboxes.
  destruct (ls.parse_layout_res preds) as [e|layout_df]; [done|].
  destruct (py_max (length <$> bboxes)) as [e|largest]; [done|].
  destruct (decide (largest < 255)%nat).
  - unfold ls.do_order, call_ordering, log_calls.
    by destruct (ls.parse_order_res _).
  - rewrite do_order_by_page_run. by destruct (ls.parse_order_res _).
Qed.

Lemma get_bboxes_nonempty images layout_df :
  ls.parse_layout_res (ls.do_layout images) = inr layout_df →
  ls.get_bboxes (ls.do_layout images) ≠ [].
Proof.
  intros Hparse Hnil. unfold ls.get_bboxes in Hnil.
  apply fmap_nil_inv in Hnil.
  pose proof (parse_layout_res_cases (ls.do_layout images)) as Hcases.
  rewrite Hparse, Hnil in Hcases. destruct Hcases as [Hne Hrows].
  apply Hne. by apply fmap_nil_inv in Hrows.
Qed.

(** X4. [run_surya] calls the ordering model once, on all pages together,
    when every page has fewer than 255 boxes; otherwise it calls it once
    for each page of at most 255 boxes, in page order, and for no other
    page. *)
Theorem run_surya_model_calls images w layout_df :
  ls.parse_layout_res (ls.do_layout images) = inr layout_df →
  let bboxes := ls.get_bboxes (ls.do_layout images) in
  order_calls (ls.run_surya images w).2
  = order_calls w ++
      (if decide (Forall (λ b, (length b < 255)%nat) bboxes)
       then [(images, bboxes)]
       else page_batch <$>
              filter (λ p, (length p.2 ≤ 255)%nat) (zip images bboxes)).
Proof.
  intros Hparse bboxes. rewrite run_surya_run, Hparse. fold bboxes.
  pose proof (get_bboxes_nonempty images layout_df Hparse) as Hne.
  fold bboxes in Hne.
  destruct (py_max (length <$> bboxes)) as [e|largest] eqn:Hmax.
  { by destruct bboxes. }
  pose proof (py_max_lt _ _ 255%nat Hmax) as Hlt. rewrite Forall_fmap in Hlt.
  destruct (decide (largest < 255)%nat) as [Hsmall|Hbig].
  - rewrite decide_True by (by apply Hlt).
    by destruct (ls.parse_order_res _).
  - rewrite decide_False by (by rewrite <- Hlt).
    assert (Hcalls : filter scored (page_batch <$> zip images bboxes)
                     = page_batch <$>
                         filter (λ p, (length p.2 ≤ 255)%nat) (zip images bboxes)).
    { rewrite filter_fmap_comm. f_equal. apply list_filter_iff.
      intros p. apply scored_page_batch. }
    rewrite Hcalls. by destruct (ls.parse_order_res _).
Qed.

(** X5. When the detector finds no block on any page (or there is no page),
    [run_surya] raises the [KeyError] of the frame without rows, and the
    ordering model is not called. *)
Theorem run_surya_no_block images w :
  detector_blocks (ls.do_layout images) = [] →
  ls.run_surya images w = (inl (KeyError "page_idx"), w).
Proof.
  intros Hnone. rewrite run_surya_run.
  pose proof (parse_layout_res_cases (ls.do_layout images)) as Hcases.
  destruct (ls.parse_layout_res _) as [e|layout_df].
  - by destruct Hcases as [-> _].
  - destruct Hcases as [Hne Hrows]. rewrite Hnone in Hrows.
    by apply fmap_nil_inv in Hrows.
Qed.

Lemma all_overflow_run (pages : list (Image * list (bbox Q))) :
  Forall (λ p, (255 < length p.2)%nat) pages →
  foldl page_step [] (page_batch <$> pages) = [] ∧
  filter scored (page_batch <$> pages) = [].
Proof.
  induction 1 as [|p pages Hp _ [IHf IHs]]; [done|].
  cbn [fmap list_fmap foldl]. split.
  - unfold page_step at 2. rewrite decide_True; [done|].
    unfold ls.get_box_num. simpl. lia.
  - rewrite filter_cons_False; [done|].
    rewrite scored_page_batch. lia.
Qed.

(** X6. When every page has more than 255 boxes, no page is scored, the
    list of order results is empty, and [run_surya] raises the [KeyError]
    of the order frame without rows: the document gets no layout table. *)
Theorem run_surya_all_pages_overflow images w :
  ls.get_bboxes (ls.do_layout images) ≠ [] →
  Forall (λ b, (255 < length b)%nat) (ls.get_bboxes (ls.do_layout images)) →
  ls.run_surya images w = (inl (KeyError "page_idx"), w).
Proof.
  intros Hne Hover. rewrite run_surya_run.
  set (bboxes := ls.get_bboxes (ls.do_layout images)) in *.
  pose proof (parse_layout_res_cases (ls.do_layout images)) as Hcases.
  destruct (ls.parse_layout_res _) as [e|layout_df].
  { by destruct Hcases as [-> _]. }
  destruct (py_max (length <$> bboxes)) as [e|largest] eqn:Hmax.
  { by destruct bboxes. }
  pose proof (py_max_lt _ _ 255%nat Hmax) as Hlt. rewrite Forall_fmap in Hlt.
  rewrite decide_False.
  - destruct (all_overflow_run (zip images bboxes)) as [-> ->].
    + apply Forall_forall. intros [img bb] Hin.
      apply elem_of_zip_r in Hin. rewrite Forall_forall in Hover.
      by apply Hover.
    + by rewrite log_calls_nil.
  - intros Hsmall%Hlt. destruct bboxes as [|b bboxes]; [done|].
    apply Forall_cons in Hsmall as [Hb _], Hover as [Hb' _]. simpl in *. lia.
Qed.

End run_surya.

(** ** The page-at-a-time strategy: alignment of results with pages *)

Section page_alignment.
Context `{External}.

(** X7. Pages of more than 255 boxes at the head of the document leave no
    trace in what [do_order_by_page] returns: the run is the run on the
    document without them, so every later result sits that many places
    earlier in the list than its page does in the document. *)
Theorem leading_overflow_pages_dropped images bboxes k w :
  Forall (λ b, (255 < length b)%nat) (take k bboxes) →
  ls.do_order_by_page images bboxes w
  = ls.do_order_by_page (drop k images) (drop k bboxes) w.
Proof.
  intros Hover. rewrite !do_order_by_page_run, <- zip_with_drop.
  rewrite <- (take_drop k (zip images bboxes)) at 1 2.
  rewrite fmap_app, foldl_app, filter_app.
  destruct (all_overflow_run (take k (zip images bboxes))) as [-> ->]; [|done].
  rewrite zip_with_take. apply Forall_forall. intros [img bb] Hin.
  apply elem_of_zip_r in Hin. rewrite Forall_forall in Hover. by apply Hover.
Qed.

Section one_result_per_page.
Hypothesis one_per_page : ∀ img b, length (batch_ordering [img] [b]) = 1%nat.

(** With a first page that is scored, the loop reaches page [i] with [i]
    results. *)
Lemma reached_length (pages : list (Image * list (bbox Q))) p0 i :
  pages !! 0%nat = Some p0 → scored (page_batch p0) →
  (i ≤ length pages)%nat →
  length (foldl page_step [] (page_batch <$> take i pages)) = i.
Proof.
  intros H0 Hs Hi. destruct i as [|i]; [done|].
  destruct pages as [|p pages]; [done|]. injection H0 as ->.
  cbn [take fmap list_fmap foldl].
  rewrite (foldl_page_step_length one_per_page).
  - rewrite (page_step_length one_per_page) by auto.
    simpl in *. rewrite length_take. lia.
  - intros Hnil. apply (f_equal length) in Hnil.
    rewrite (page_step_length one_per_page) in Hnil by auto. done.
Qed.

(** X8. When the first page has at most 255 boxes (and the model returns one
    result for a call on one page), [do_order_by_page] returns one result
    for each page, and the entry of every page of at most 255 boxes is the
    model's result for that page alone. *)
Theorem do_order_by_page_aligned images bboxes bb_0 w :
  bboxes !! 0%nat = Some bb_0 → (length bb_0 ≤ 255)%nat →
  ∃ order_predictions,
    (ls.do_order_by_page images bboxes w).1 = inr order_predictions ∧
    length order_predictions = length (zip images bboxes) ∧
    ∀ i img bb,
      images !! i = Some img → bboxes !! i = Some bb →
      (length bb ≤ 255)%nat →
      order_predictions !! i = batch_ordering [img] [bb] !! 0%nat.
Proof.
  intros Hbb0 Hok0. rewrite do_order_by_page_run. cbn [fst].
  set (pages := zip images bboxes).
  eexists. split; [done|].
  destruct (images !! 0%nat) as [img_0|] eqn:Himg0.
  2:{ assert (pages = []) as ->.
      { unfold pages. by destruct images. }
      split; [done|]. intros i img bb Hi. destruct images; [done|done]. }
  assert (H0 : pages !! 0%nat = Some (img_0, bb_0)).
  { apply lookup_zip_with_Some. eauto. }
  assert (Hs0 : scored (page_batch (img_0, bb_0))).
  { by apply scored_page_batch. }
  split.
  - pose proof (reached_length pages _ (length pages) H0 Hs0 (le_n _)) as Hl.
    by rewrite firstn_all in Hl.
  - intros i img bb Himg Hbb Hok.
    assert (Hi : pages !! i = Some (img, bb)).
    { apply lookup_zip_with_Some. eauto. }
    rewrite <- (take_drop_middle pages i _ Hi), fmap_app, foldl_app.
    cbn [fmap list_fmap foldl].
    set (reached := foldl page_step [] (page_batch <$> take i pages)).
    destruct (foldl_page_step_prefix (page_step reached (page_batch (img, bb)))
                (page_batch <$> drop (S i) pages)) as [rest ->].
    assert (Hlen : length reached = i).
    { apply (reached_length pages _ i H0 Hs0).
      apply lookup_lt_Some in Hi. lia. }
    unfold page_step at 1. rewrite decide_False
      by (unfold ls.get_box_num; simpl; lia).
    cbn [page_batch fst snd].
    pose proof (one_per_page img bb) as Hone.
    destruct (batch_ordering [img] [bb]) as [|res [|??]]; try done.
    rewrite <- app_assoc. rewrite lookup_app_r by lia.
    by rewrite Hlen, Nat.sub_diag.
Qed.

End one_result_per_page.
End page_alignment.

(** ** The whole-batch strategy: every box gets the rank the model gave it *)

Section whole_batch.
Context `{External}.

Lemma bind_enumerate_fmap {A B C} (g : A → B) (F : nat * B → list C)
    (l : list A) :
  enumerate (g <$> l) ≫= F = enumerate l ≫= (λ ix, F (ix.1, g ix.2)).
Proof.
  unfold enumerate. rewrite imap_fmap.
  rewrite <- (list_fmap_bind (λ ix : nat * A, (ix.1, g ix.2)) F).
  f_equal. by rewrite fmap_imap.
Qed.

Lemma bind_indexed_singletons {A C} (F : A → C) (f : nat → nat) (l : list A) :
  imap (λ i x, (f i, x)) l ≫= (λ jx, [F jx.2]) = F <$> l.
Proof.
  revert f. induction l as [|x l IH]; intros f; [done|].
  rewrite imap_cons, bind_cons, fmap_cons. simpl. f_equal. apply (IH (f ∘ S)).
Qed.

Lemma bind_enumerate_singletons {A C} (F : A → C) (l : list A) :
  enumerate l ≫= (λ jx, [F jx.2]) = F <$> l.
Proof. apply (bind_indexed_singletons F id). Qed.

(** Page index and geometry of the layout rows, page by page. *)
Lemma layout_pairs preds layout_df :
  ls.parse_layout_res preds = inr layout_df →
  (λ r, (l_page_idx r, l_bbox r)) <$> layout_df
  = enumerate (ls.get_bboxes preds) ≫= (λ pb, pair pb.1 <$> pb.2).
Proof.
  intros Hparse%parse_layout_res_blocks.
  transitivity ((λ t : nat * nat * bbox Q * string, (t.1.1.1, t.1.2))
                  <$> detector_blocks preds).
  { by rewrite <- Hparse, <- list_fmap_compose. }
  unfold detector_blocks, ls.get_bboxes.
  rewrite fmap_bind_comm, bind_enumerate_fmap.
  apply list_bind_ext; [|done]. intros [p page]. cbn [fst snd].
  rewrite fmap_bind_comm, <- list_fmap_compose.
  rewrite <- (bind_enumerate_singletons (λ b, (p, lb_bbox b))).
  apply list_bind_ext; [|done]. by intros [j block].
Qed.

(** The order frame, page by page, or the [KeyError] of the frame without
    rows. *)
Lemma parse_order_res_cases results :
  let boxes :=
    enumerate results ≫= (λ pr,
      (λ box, (pr.1, ob_bbox box, ob_position box)) <$> or_bboxes pr.2) in
  match ls.parse_order_res results with
  | inr order_df =>
      (λ o, (o_page_idx o, o_bbox o, o_position o)) <$> order_df = boxes
  | inl e => e = KeyError "page_idx" ∧ boxes = []
  end.
Proof.
  intros boxes. unfold ls.parse_order_res, frame_of.
  set (res_list := _ ≫= _).
  assert (Hrows :
    (λ o, (o_page_idx o, o_bbox o, o_position o)) <$> res_list = boxes).
  { unfold res_list, boxes. rewrite fmap_bind_comm.
    apply list_bind_ext; [|done]. intros [p res]. cbn [fst snd].
    rewrite fmap_bind_comm.
    rewrite <- (bind_enumerate_singletons
                  (λ box, (p, ob_bbox box, ob_position box))).
    apply list_bind_ext; [|done]. by intros [j box]. }
  rewrite <- Hrows. by destruct res_list.
Qed.

(** X3. The whole-batch path.  When every page has fewer than 255 boxes, the
    model hands back, page by page, the boxes it was given, and no two
    boxes of a page have the same integer geometry, [run_surya] calls the
    model once and returns a layout table in which every box has exactly
    the position the model gave it. *)
Theorem run_surya_whole_batch images w :
  let bboxes := ls.get_bboxes (ls.do_layout images) in
  let results := batch_ordering images bboxes in
  detector_blocks (ls.do_layout images) ≠ [] →
  Forall (λ b, (length b < 255)%nat) bboxes →
  (λ res, ob_bbox <$> or_bboxes res) <$> results = bboxes →
  Forall (λ b, NoDup (tk.int_bbox <$> b)) bboxes →
  ∃ table,
    ls.run_surya images w = (inr table, log_calls w [(images, bboxes)]) ∧
    (λ r, (page_idx r, row_bbox r, position r)) <$> table
    ≡ₚ enumerate results ≫= (λ pr,
         (λ box, (pr.1, tk.int_bbox (ob_bbox box), ob_position box))
           <$> or_bboxes pr.2).
Proof.
  intros bboxes results Hblocks Hsmall Hecho Hdistinct.
  rewrite run_surya_run. fold bboxes.
  pose proof (parse_layout_res_cases (ls.do_layout images)) as Hcases.
  destruct (ls.parse_layout_res _) as [e|layout_df] eqn:Hparse.
  { by destruct Hcases as [_ ?]. }
  destruct Hcases as [Hne _].
  pose proof (get_bboxes_nonempty images layout_df Hparse) as Hbb.
  fold bboxes in Hbb.
  destruct (py_max (length <$> bboxes)) as [e|largest] eqn:Hmax.
  { by destruct bboxes. }
  rewrite decide_True
    by (apply (py_max_lt _ _ 255%nat Hmax); by rewrite Forall_fmap).
  fold results.
  pose proof (layout_pairs _ _ Hparse) as Hlayout. fold bboxes in Hlayout.
  pose proof (parse_order_res_cases results) as Horder. cbn zeta in Horder.
  assert (Hpairs : ∀ order_df : list order_row,
    (λ o, (o_page_idx o, o_bbox o, o_position o)) <$> order_df
      = enumerate results ≫= (λ pr,
          (λ box, (pr.1, ob_bbox box, ob_position box)) <$> or_bboxes pr.2) →
    (λ o, (o_page_idx o, o_bbox o)) <$> order_df
      = (λ r, (l_page_idx r, l_bbox r)) <$> layout_df).
  { intros order_df Hrows.
    apply (f_equal (fmap (λ t : nat * bbox Q * Z, t.1))) in Hrows.
    rewrite <- list_fmap_compose, fmap_bind_comm in Hrows.
    rewrite Hlayout, <- Hecho, bind_enumerate_fmap.
    etrans; [exact Hrows|]. apply list_bind_ext; [|done].
    intros [p res]. cbn [fst snd]. by rewrite <- !list_fmap_compose. }
  destruct (ls.parse_order_res results) as [e|order_df].
  { destruct Horder as [_ Hnil]. exfalso. apply Hne.
    pose proof (Hpairs [] (eq_sym Hnil)) as Hl.
    symmetry in Hl. by apply fmap_nil_inv in Hl. }
  eexists. split; [done|].
  rewrite (fmap_Permutation _ _ _ (order_layout_perm layout_df order_df)).
  rewrite attach_position_aligned.
  - apply (f_equal (fmap (λ t : nat * bbox Q * Z,
                            (t.1.1, tk.int_bbox t.1.2, t.2)))) in Horder.
    rewrite <- list_fmap_compose, fmap_bind_comm in Horder.
    match goal with |- ?a ≡ₚ ?b => assert (a = b) as ->; [|done] end.
    etrans; [exact Horder|]. apply list_bind_ext; [|done].
    intros [p res]. cbn [fst snd]. by rewrite <- !list_fmap_compose.
  - by apply Hpairs.
  - apply (f_equal (fmap (λ pb : nat * bbox Q, (pb.1, tk.int_bbox pb.2))))
      in Hlayout.
    rewrite <- list_fmap_compose, fmap_bind_comm in Hlayout.
    unfold compose in Hlayout. cbn [fst snd] in Hlayout. rewrite Hlayout.
    apply NoDup_bind.
    + intros [p b] [p' b'] y Hx Hx' Hy Hy'. cbn [fst snd] in *.
      rewrite <- list_fmap_compose in Hy, Hy'.
      apply list_elem_of_fmap in Hy as (? & -> & _).
      apply list_elem_of_fmap in Hy' as (? & Heq & _).
      injection Heq as <- _.
      apply elem_of_enumerate in Hx, Hx'. congruence.
    + intros [p b] Hin%elem_of_enumerate. cbn [fst snd].
      rewrite <- list_fmap_compose.
      rewrite (list_fmap_compose tk.int_bbox (pair p)).
      apply NoDup_fmap_2; [by intros ?? [= ->]|].
      rewrite Forall_forall in Hdistinct. apply Hdistinct.
      by eapply list_elem_of_lookup_2.
    + apply NoDup_enumerate.
Qed.

End whole_batch.

(** ** [crop_images]: which blocks are cropped, and in what order *)

Section cropping.
Context `{External}.

Lemma StronglySorted_filter_keep {A} (R : relation A) (P : A → Prop)
    `{∀ x, Decision (P x)} (l : list A) :
  StronglySorted R l → StronglySorted R (filter P l).
Proof.
  induction 1 as [|x l Hl IH Hx]; [constructor|].
  rewrite filter_cons. destruct (decide (P x)); [|done].
  constructor; [done|]. apply Forall_forall. intros y [_ Hy]%list_elem_of_filter.
  rewrite Forall_forall in Hx. by apply Hx.
Qed.

(** In a list sorted by a numeric key, the elements of key below [n + 1]
    are those of key below [n] followed by those of key [n]. *)
Lemma sorted_filter_below {A} (key : A → nat) (l : list A) (n : nat) :
  StronglySorted (λ a b, (key a ≤ key b)%nat) l →
  filter (λ x, (key x < S n)%nat) l
  = filter (λ x, (key x < n)%nat) l ++ filter (λ x, key x = n) l.
Proof.
  induction 1 as [|x l Hl IH Hx]; [done|].
  rewrite !filter_cons, IH.
  destruct (decide (key x < n)%nat) as [Hlt|Hge].
  - rewrite decide_True by lia. rewrite decide_False by lia. done.
  - destruct (decide (key x = n)) as [Heq|Hne].
    + rewrite decide_True by lia.
      rewrite (filter_none (λ y, (key y < n)%nat) l); [done|].
      intros y Hy. rewrite Forall_forall in Hx. specialize (Hx y Hy). lia.
    + rewrite decide_False by lia. done.
Qed.

Lemma sorted_filter_by_key {A} (key : A → nat) (l : list A) (n : nat) :
  StronglySorted (λ a b, (key a ≤ key b)%nat) l →
  seq 0 n ≫= (λ p, filter (λ x, key x = p) l)
  = filter (λ x, (key x < n)%nat) l.
Proof.
  intros Hs. induction n as [|n IH].
  - simpl. symmetry. apply filter_none. intros; lia.
  - rewrite seq_S, bind_app, IH, bind_singleton. simpl.
    by rewrite sorted_filter_below.
Qed.

Lemma bind_enumerate_index {A C} (G : nat → list C) (l : list A) :
  enumerate l ≫= (λ ix, G ix.1) = seq 0 (length l) ≫= G.
Proof.
  transitivity ((fst <$> enumerate l) ≫= G).
  { by rewrite list_fmap_bind. }
  f_equal. unfold enumerate.
  rewrite fmap_imap. rewrite (imap_ext _ (λ j _, j)) by done.
  by rewrite (imap_seq_0 l (λ j, j)), list_fmap_id.
Qed.

Lemma filter_page_scaled scale buffer p (lt : list surya_row) :
  filter (λ r, page_idx (s_row r) = p) (ot.scale_row scale buffer <$> lt)
  = ot.scale_row scale buffer <$> filter (λ r, page_idx (s_row r) = p) lt.
Proof.
  rewrite (filter_fmap_comm (ot.scale_row scale buffer)
             (λ r, page_idx (s_row r) = p)).
  f_equal.
Qed.


(** X11. On a layout table sorted by page, as [order_layout] leaves it, the
    rows [crop_images] returns are, in the order of the table, the blocks
    of the pages that have an image and fewer than 255 rows: no such block
    is left out, none comes twice, and no other block is cropped. *)
Theorem crop_images_in_table_order images layout_table image_ppi layout_ppi
    buffer image_df layout_table' :
  StronglySorted
    (λ a b, (page_idx (s_row a) ≤ page_idx (s_row b))%nat) layout_table →
  ot.crop_images images layout_table image_ppi layout_ppi buffer
    = inr (image_df, layout_table') →
  (λ ir, (i_page_idx ir, i_block_idx ir)) <$> image_df
  = (λ r, (page_idx (s_row r), block_idx (s_row r)))
      <$> filter (cropped_row images layout_table) layout_table.
Proof.
  intros Hsorted. unfold ot.crop_images.
  destruct (py_truediv _ _) as [e|scale]; [done|]. intros [= <- _].
  set (few := λ r : surya_row,
         (length (filter (λ r', page_idx (s_row r') = page_idx (s_row r))
                         layout_table) < 255)%nat).
  set (ids := λ r : surya_row, (page_idx (s_row r), block_idx (s_row r))).
  set (on_page := λ p : nat,
         ids <$> filter (λ r, page_idx (s_row r) = p) (filter few layout_table)).
  transitivity (enumerate images ≫= (λ ix, on_page ix.1)).
  { rewrite fmap_bind_comm. apply list_bind_ext; [|done]. intros [p img].
    unfold on_page. cbn [fst]. rewrite filter_page_scaled, length_fmap.
    destruct (decide (255 ≤ _)%nat) as [Hmany|Hfew].
    - rewrite filter_none; [done|].
      intros r [Hr _]%list_elem_of_filter Hp. unfold few in Hr.
      rewrite Hp in Hr. lia.
    - rewrite list_filter_filter_l by (intros r Hr; unfold few; rewrite Hr; lia).
      rewrite <- !list_fmap_compose. apply list_fmap_ext.
      intros i r Hi. apply list_elem_of_lookup_2 in Hi.
      apply list_elem_of_filter in Hi as [Hr _]. unfold compose, ids. cbn.
      by rewrite Hr. }
  rewrite (bind_enumerate_index on_page). unfold on_page.
  rewrite <- (fmap_bind_comm ids).
  rewrite (sorted_filter_by_key (λ r, page_idx (s_row r)))
    by by apply StronglySorted_filter_keep.
  by rewrite list_filter_filter.
Qed.

End cropping.

(** ** [run_ocr] and [tesseract_ocr_multi]: outcomes and side effects *)

Section ocr_outcomes.
Context `{External}.

Lemma length_py_split sep s :
  length (py_split sep s) = S (count_char sep s).
Proof.
  induction s as [|c s IH]; [done|]. simpl.
  destruct (Ascii.eqb c sep); simpl; [by rewrite IH|].
  destruct (py_split sep s); simpl in *; lia.
Qed.

(** [run_ocr] once the cropping has returned a batch that is not empty. *)
Lemma run_ocr_run images layout_table image_ppi layout_ppi lang buffer_size
    temp_path w lt1 image_df lt' :
  ot.preprocess_layout_df layout_table = inr lt1 →
  ot.crop_images images lt1 image_ppi layout_ppi buffer_size
    = inr (image_df, lt') →
  image_df ≠ [] →
  let imgs := i_image <$> image_df in
  let params := ot.tesseract_params "tesseract" temp_path lang in
  let ran := engine_launches (launches w) params (Some imgs) in
  ot.run_ocr images layout_table image_ppi layout_ppi lang buffer_size
             temp_path w =
    match engine_stdout (launches w) params (Some imgs) with
    | inl e => (inl e, after_ocr w temp_path imgs ran false)
    | inr None =>
        (inr ((λ r, {| t_page_idx := i_page_idx r;
                       t_block_idx := i_block_idx r; t_text := "" |})
                <$> image_df, lt'),
         after_ocr w temp_path imgs ran false)
    | inr (Some text) =>
        match ot.assign_text image_df (py_split form_feed text) with
        | inl e => (inl e, after_ocr w temp_path imgs ran true)
        | inr ocr_df => (inr (ocr_df, lt'), after_ocr w temp_path imgs ran true)
        end
    end.
Proof.
  intros Hpre Hcrop Hne imgs params ran.
  unfold ot.run_ocr, bind, lift, ret. rewrite Hpre, Hcrop.
  destruct image_df as [|r0 image_df]; [done|]. cbn [frame_of].
  rewrite tesseract_ocr_multi_run by done. fold imgs params ran.
  destruct (engine_stdout _ _ _) as [e|[text|]]; [done| |].
  - by destruct (ot.assign_text _ _).
  - unfold ot.assign_text. rewrite decide_True
      by (unfold imgs; by rewrite length_replicate, length_fmap).
    do 3 f_equal. unfold imgs. rewrite length_fmap.
    generalize (r0 :: image_df). intros l.
    induction l as [|r l IH]; [done|]. simpl. by rewrite IH.
Qed.

(** X12. Given a batch that is not empty and an OCR process that printed a
    text, [run_ocr] returns a table exactly when the text holds one form
    feed less than there are sub-images; with any other number of form
    feeds it raises.  An engine that ends every page, the last one too,
    with a form feed therefore makes every run raise. *)
Theorem run_ocr_form_feeds images layout_table image_ppi layout_ppi lang
    buffer_size temp_path w lt1 image_df lt' text :
  ot.preprocess_layout_df layout_table = inr lt1 →
  ot.crop_images images lt1 image_ppi layout_ppi buffer_size
    = inr (image_df, lt') →
  image_df ≠ [] →
  engine_stdout (launches w) (ot.tesseract_params "tesseract" temp_path lang)
                (Some (i_image <$> image_df)) = inr (Some text) →
  let run := ot.run_ocr images layout_table image_ppi layout_ppi lang
                        buffer_size temp_path w in
  (S (count_char form_feed text) = length image_df →
   ∃ ocr_df, run.1 = inr (ocr_df, lt') ∧ length ocr_df = length image_df)
  ∧ (S (count_char form_feed text) ≠ length image_df →
     run.1 = inl (Exception "Error in adding OCR results to DataFrame")).
Proof.
  intros Hpre Hcrop Hne Hout run. unfold run.
  rewrite (run_ocr_run _ _ _ _ _ _ _ _ _ _ _ Hpre Hcrop Hne), Hout.
  unfold ot.assign_text. rewrite length_py_split. split; intros Hcount.
  - rewrite decide_True by done. eexists. split; [done|].
    rewrite length_zip_with, length_py_split. lia.
  - by rewrite decide_False.
Qed.

(** X13. Whatever the batch and whatever the process does,
    [tesseract_ocr_multi] touches no file but its temporary file, launches
    at most two processes, and makes no call to the ordering model. *)
Theorem tesseract_ocr_multi_frame cmd imgs lang temp_path w :
  let w' := (ot.tesseract_ocr_multi cmd imgs lang temp_path w).2 in
  (∀ path, path ≠ temp_path → files w' !! path = files w !! path) ∧
  (launches w ≤ launches w' ≤ launches w + 2)%nat ∧
  order_calls w' = order_calls w.
Proof.
  destruct imgs as [|img rest].
  { simpl. split; [done|]. split; [lia|done]. }
  cbn zeta. rewrite tesseract_ocr_multi_run by done.
  assert (Hran : (1 ≤ engine_launches (launches w)
                        (ot.tesseract_params cmd temp_path lang)
                        (Some (img :: rest)) ≤ 2)%nat).
  { unfold engine_launches. destruct (subprocess_run _ _ _); lia. }
  destruct (engine_stdout _ _ _) as [e|[text|]]; cbn [snd after_ocr files
    launches order_calls]; (split; [|split; [lia|done]]); intros path Hpath;
    rewrite ?lookup_delete_ne by done; by rewrite lookup_insert_ne.
Qed.

(** X19. When the OCR process completes without a captured output,
    [run_ocr] does not raise: it returns one row for each sub-image, in
    their order, every one with the empty text, and the temporary file is
    still on disk. *)
Theorem run_ocr_without_output images layout_table image_ppi layout_ppi lang
    buffer_size temp_path w lt1 image_df lt' :
  ot.preprocess_layout_df layout_table = inr lt1 →
  ot.crop_images images lt1 image_ppi layout_ppi buffer_size
    = inr (image_df, lt') →
  image_df ≠ [] →
  engine_stdout (launches w) (ot.tesseract_params "tesseract" temp_path lang)
                (Some (i_image <$> image_df)) = inr None →
  let run := ot.run_ocr images layout_table image_ppi layout_ppi lang
                        buffer_size temp_path w in
  run.1 = inr ((λ r, {| t_page_idx := i_page_idx r;
                        t_block_idx := i_block_idx r; t_text := "" |})
                 <$> image_df, lt')
  ∧ files run.2 !! temp_path = Some (i_image <$> image_df).
Proof.
  intros Hpre Hcrop Hne Hout run. unfold run.
  rewrite (run_ocr_run _ _ _ _ _ _ _ _ _ _ _ Hpre Hcrop Hne), Hout.
  split; [done|]. apply lookup_insert_eq.
Qed.

(** X20. For a batch that is not empty, the temporary file is gone when
    [tesseract_ocr_multi] ends exactly when the process gave a text: if
    both launches raise, or the process completes without a captured
    output, the file stays on disk with the whole batch in it. *)
Theorem temp_file_fate cmd imgs lang temp_path w :
  imgs ≠ [] →
  let found :=
    files (ot.tesseract_ocr_multi cmd imgs lang temp_path w).2 !! temp_path in
  match engine_stdout (launches w) (ot.tesseract_params cmd temp_path lang)
                      (Some imgs) with
  | inr (Some _) => found = None
  | _ => found = Some imgs
  end.
Proof.
  intros Himgs. cbn zeta. rewrite tesseract_ocr_multi_run by done.
  destruct (engine_stdout _ _ _) as [e|[text|]]; cbn [snd after_ocr files].
  - apply lookup_insert_eq.
  - apply lookup_delete_eq.
  - apply lookup_insert_eq.
Qed.

End ocr_outcomes.

(** ** [parse_pdf]: texts of skipped pages, equal resolutions, zero ppi *)

Section parse_pdf.
Context `{External}.

Lemma crop_images_page_few images layout_table image_ppi layout_ppi buffer
    image_df layout_table' :
  ot.crop_images images layout_table image_ppi layout_ppi buffer
    = inr (image_df, layout_table') →
  Forall (λ ir,
    (length (filter (λ r, page_idx (s_row r) = i_page_idx ir) layout_table)
     < 255)%nat) image_df.
Proof.
  unfold ot.crop_images. destruct (py_truediv _ _) as [e|scale]; [done|].
  intros [= <- _].
  apply Forall_bind, Forall_forall. intros [p img] _.
  unfold compose. rewrite filter_page_scaled, length_fmap.
  destruct (decide (255 ≤ _)%nat) as [|Hcount]; [constructor|].
  apply Forall_fmap, Forall_forall. intros r _. cbn. lia.
Qed.

Lemma assign_text_ids image_df ocr_res ocr_df :
  ot.assign_text image_df ocr_res = inr ocr_df →
  (λ o, (t_page_idx o, t_block_idx o)) <$> ocr_df
  = (λ ir, (i_page_idx ir, i_block_idx ir)) <$> image_df.
Proof.
  unfold ot.assign_text. destruct (decide _) as [Hlen|]; [|done].
  intros [= <-]. revert ocr_res Hlen.
  induction image_df as [|ir image_df IH]; intros [|text ocr_res] Hlen;
    simplify_eq/=; [done|]. f_equal. by apply IH.
Qed.

Lemma run_ocr_inv_ids images lt ippi lppi lang buffer path w ocr_df lt' w' :
  ot.run_ocr images lt ippi lppi lang buffer path w = (inr (ocr_df, lt'), w') →
  ∃ image_df,
    ot.crop_images images lt ippi lppi buffer = inr (image_df, lt') ∧
    (λ o, (t_page_idx o, t_block_idx o)) <$> ocr_df
    = (λ ir, (i_page_idx ir, i_block_idx ir)) <$> image_df.
Proof.
  unfold ot.run_ocr, bind, lift, ret, ot.preprocess_layout_df. intros Hrun.
  destruct lt as [|r lt]; [done|].
  destruct (ot.crop_images _ _ _ _ _) as [|[image_df lt'']]; [done|].
  destruct (frame_of "image" image_df) as [|image_df'] eqn:Hframe; [done|].
  assert (image_df' = image_df) as ->.
  { unfold frame_of in Hframe. destruct image_df; [done|]. by injection Hframe. }
  destruct (ot.tesseract_ocr_multi _ _ _ _ w) as [[|ocr_res] w1]; [done|].
  destruct (ot.assign_text _ _) as [|ocr_df'] eqn:Hassign; [done|].
  injection Hrun as <- <- <-. exists image_df. split; [done|].
  by eapply assign_text_ids.
Qed.

Lemma text_map_Some ocr_df k text :
  PdfParser.text_map ocr_df !! k = Some text →
  ∃ o, o ∈ ocr_df ∧
       PdfParser.block_unique_id (t_page_idx o) (t_block_idx o) = k.
Proof.
  unfold PdfParser.text_map, py_dict_zip. rewrite zip_fmap_same.
  intros [Hm|Hin]%foldl_insert_Some; [by rewrite lookup_empty in Hm|].
  apply list_elem_of_fmap in Hin as (o & Heq & Ho).
  injection Heq as -> _. eauto.
Qed.

(** X14. In the table [parse_pdf] returns, every block of a page with 255
    blocks or more has no text: such pages are never cropped, so no OCR row
    can carry their page index. *)
Theorem skipped_pages_have_no_text pdf lang ppi temp_name w merged w' :
  PdfParser.parse_pdf pdf lang ppi temp_name w = (inr merged, w') →
  Forall (λ m,
    (255 ≤ length (filter (λ m', m_page_index m' = m_page_index m) merged))%nat →
    m_text m = None) merged.
Proof.
  unfold PdfParser.parse_pdf, bind, ret. intros Hrun.
  destruct (PdfParser.get_surya_df _ _ w) as [[|surya_df] w1]; [done|].
  unfold PdfParser.get_ocr_df in Hrun.
  destruct (ot.run_ocr _ _ _ _ _ _ _ w1) as [[|[ocr_df lt']] w2] eqn:Ho; [done|].
  injection Hrun as <- <-.
  pose proof (run_ocr_inv _ _ _ _ _ _ _ _ _ _ _ Ho) as (scale & _ & ->).
  apply run_ocr_inv_ids in Ho as (image_df & Hcrop & Hids).
  apply crop_images_page_few in Hcrop.
  unfold PdfParser._merge_layout_ocr. rewrite <- !list_fmap_compose.
  apply Forall_fmap, Forall_forall. intros r _. unfold compose.
  cbn [PdfParser.select_columns m_page_index m_text fst snd].
  rewrite (filter_fmap_comm _ (λ m', m_page_index m' = _)), length_fmap.
  cbn [m_page_index PdfParser.select_columns fst snd ot.scale_row s_row
       with_bbox page_idx block_idx].
  intros Hmany.
  destruct (PdfParser.text_map ocr_df !! _) as [text|] eqn:Htext; [|done].
  exfalso. apply text_map_Some in Htext as (o & Ho & Hkey).
  apply block_unique_id_inj in Hkey as [Hp _].
  assert (Hin : (t_page_idx o, t_block_idx o)
                ∈ (λ o', (t_page_idx o', t_block_idx o')) <$> ocr_df)
    by (apply list_elem_of_fmap; by exists o).
  rewrite Hids in Hin. apply list_elem_of_fmap in Hin as (ir & Heq & Hir).
  injection Heq as Hpir _.
  rewrite Forall_forall in Hcrop. specialize (Hcrop ir Hir).
  rewrite <- Hpir, Hp in Hcrop. lia.
Qed.



(** X16. At [ppi = 0], once the layout table is built, [parse_pdf] raises
    [ZeroDivisionError] in the cropping stage, before any file is written
    or any OCR process launched. *)
Theorem parse_pdf_zero_ppi pdf lang temp_name w surya_df w1 :
  PdfParser.get_surya_df pdf 0 w = (inr surya_df, w1) →
  PdfParser.parse_pdf pdf lang 0 temp_name w = (inl ZeroDivisionError, w1).
Proof.
  intros Hs. unfold PdfParser.parse_pdf, bind. rewrite Hs.
  apply get_surya_df_inv in Hs as (layout_df & order_df & Hparse & ->).
  pose proof (parse_layout_res_cases
                (ls.do_layout (pdfbytes2imgs pdf 0))) as Hcases.
  rewrite Hparse in Hcases. destruct Hcases as [Hne _].
  unfold PdfParser.get_ocr_df, ot.run_ocr, bind, lift,
    ot.preprocess_layout_df, ot.crop_images.
  destruct (_ <$> ls.order_layout layout_df order_df) as [|r rows] eqn:Hrows.
  - apply fmap_nil_inv in Hrows.
    pose proof (order_layout_perm layout_df order_df) as Hperm.
    rewrite Hrows in Hperm. symmetry in Hperm.
    apply Permutation_nil_r in Hperm. by apply fmap_nil_inv in Hperm.
  - done.
Qed.

End parse_pdf.

(** ** Rescaling at any pair of resolutions *)

Section rescale_any.





End rescale_any.

(** ** The job array: every report goes to exactly one job *)

Section job_array.
Context {A : Type}.

Lemma py_slice_nat (l : list A) (s e : nat) :
  (s ≤ e)%nat → (e ≤ length l)%nat →
  py_slice l (Z.of_nat s) (Z.of_nat e) = take (e - s) (drop s l).
Proof.
  intros Hse He. unfold py_slice.
  rewrite !decide_False by lia.
  rewrite !Z.min_l by lia.
  by rewrite <- Nat2Z.inj_sub, !Nat2Z.id by done.
Qed.

(** The share of job [j]: a full batch, and for the last job the rest of
    the list. *)
Lemma get_report_names_share (report_names : list A) (j n : nat) :
  (1 ≤ j ≤ n)%nat →
  let batch_size := (length report_names / n)%nat in
  master.get_report_names report_names (Z.of_nat j) (Z.of_nat n)
  = inr (if decide (j = n) then drop ((n - 1) * batch_size) report_names
         else take batch_size (drop ((j - 1) * batch_size) report_names)).
Proof.
  intros Hj batch_size. unfold master.get_report_names.
  rewrite decide_False by lia. f_equal.
  rewrite <- Nat2Z.inj_div. fold batch_size.
  assert (Hfit : (n * batch_size ≤ length report_names)%nat).
  { apply Nat.Div0.mul_div_le. }
  replace ((Z.of_nat j - 1) * Z.of_nat batch_size)
    with (Z.of_nat ((j - 1) * batch_size))
    by (rewrite Nat2Z.inj_mul, Nat2Z.inj_sub by lia; done).
  destruct (decide (j = n)) as [->|Hne].
  - rewrite decide_True by done.
    rewrite py_slice_nat by nia. apply take_ge. rewrite length_drop. lia.
  - rewrite decide_False by lia.
    rewrite <- Nat2Z.inj_mul.
    rewrite py_slice_nat by nia. f_equal. nia.
Qed.

Lemma batches_prefix (l : list A) (b k : nat) :
  mjoin ((λ j, take b (drop ((j - 1) * b) l)) <$> seq 1 k) = take (k * b) l.
Proof.
  induction k as [|k IH]; [done|].
  rewrite seq_S, fmap_app, join_app, IH. simpl. rewrite app_nil_r.
  replace (k - 0)%nat with k by lia.
  rewrite take_take_drop. f_equal. lia.
Qed.

(** X18. For a job array of [n_jobs >= 1] jobs, the shares
    [get_report_names] gives the jobs 1 to [n_jobs], put one after the
    other, are the list of report names: every report is handled by
    exactly one job, in the order of the list. *)
Theorem get_report_names_partition (report_names : list A) (n_jobs : nat) :
  (1 ≤ n_jobs)%nat →
  ∃ shares,
    Forall2 (λ job_id share,
               master.get_report_names report_names (Z.of_nat job_id)
                                       (Z.of_nat n_jobs) = inr share)
            (seq 1 n_jobs) shares
    ∧ mjoin shares = report_names.
Proof.
  intros Hn. set (b := (length report_names / n_jobs)%nat).
  exists ((λ j, if decide (j = n_jobs) then drop ((n_jobs - 1) * b) report_names
                else take b (drop ((j - 1) * b) report_names))
            <$> seq 1 n_jobs).
  split.
  - apply Forall2_fmap_r, Forall_Forall2_diag, Forall_forall.
    intros j Hj%elem_of_seq. apply get_report_names_share. lia.
  - destruct n_jobs as [|k]; [lia|].
    rewrite seq_S, fmap_app, join_app. simpl.
    rewrite decide_True by done. rewrite app_nil_r.
    transitivity (take (k * b) report_names ++ drop (k * b) report_names);
      [|apply take_drop].
    f_equal; [|f_equal; lia].
    rewrite <- batches_prefix. f_equal. apply list_fmap_ext.
    intros i j Hi. apply list_elem_of_lookup_2, elem_of_seq in Hi.
    by rewrite decide_False by lia.
Qed.

End job_array.

(** ** The further properties on the concrete documents *)

Section further_scenarios.

(** A decidable hypothesis on concrete data, by evaluation. *)
Ltac by_evaluation :=
  match goal with
  | |- ?P => refine (@bool_decide_unpack P _ _); vm_compute; exact I
  end.

Lemma order_layout_aligned_witness :
  (λ r, (page_idx r, row_bbox r, position r))
    <$> ls.order_layout scenario.five_blocks scenario.five_ranked
  ≡ₚ (λ o, (o_page_idx o, tk.int_bbox (o_bbox o), o_position o))
       <$> scenario.five_ranked.
Proof.
  apply (order_layout_aligned scenario.five_blocks scenario.five_ranked).
  - vm_compute. reflexivity.
  - by_evaluation.
Defined.

Lemma run_surya_model_calls_witness :
  let E := scenario.toy scenario.one_text_per_frame in
  let images := pdfbytes2imgs (External := E) scenario.doc_10_20_300 72 in
  let bboxes := ls.get_bboxes (ls.do_layout (H := E) images) in
  order_calls (ls.run_surya (H := E) images scenario.empty_world).2
  = order_calls (scenario.empty_world (H := E)) ++
      (if decide (Forall (λ b, (length b < 255)%nat) bboxes)
       then [(images, bboxes)]
       else page_batch <$>
              filter (λ p, (length p.2 ≤ 255)%nat) (zip images bboxes)).
Proof.
  intros E images bboxes.
  apply (run_surya_model_calls (H := E) images scenario.empty_world
           (scenario.layout_of scenario.doc_10_20_300 72)).
  vm_compute. reflexivity.
Defined.

Lemma run_surya_no_block_witness :
  let E := scenario.toy scenario.one_text_per_frame in
  ls.run_surya (H := E) (pdfbytes2imgs (External := E) scenario.doc_blank 72)
               scenario.empty_world
  = (inl (KeyError "page_idx"), scenario.empty_world).
Proof.
  intros E.
  apply (run_surya_no_block (H := E)
           (pdfbytes2imgs (External := E) scenario.doc_blank 72)).
  reflexivity.
Defined.

Lemma run_surya_all_pages_overflow_witness :
  let E := scenario.toy scenario.one_text_per_frame in
  ls.run_surya (H := E) (pdfbytes2imgs (External := E) scenario.doc_300 72)
               scenario.empty_world
  = (inl (KeyError "page_idx"), scenario.empty_world).
Proof.
  intros E.
  apply (run_surya_all_pages_overflow (H := E)
           (pdfbytes2imgs (External := E) scenario.doc_300 72)).
  - vm_compute. discriminate.
  - by_evaluation.
Defined.

Lemma leading_overflow_pages_dropped_witness :
  let E := scenario.toy scenario.one_text_per_frame in
  let images := pdfbytes2imgs (External := E) scenario.doc_256_2 72 in
  let bboxes := ls.get_bboxes (ls.do_layout (H := E) images) in
  ls.do_order_by_page (H := E) images bboxes scenario.empty_world
  = ls.do_order_by_page (H := E) (drop 1 images) (drop 1 bboxes)
                        scenario.empty_world.
Proof.
  intros E images bboxes.
  apply (leading_overflow_pages_dropped (H := E) images bboxes 1).
  by_evaluation.
Defined.

Lemma do_order_by_page_aligned_witness :
  let E := scenario.toy scenario.one_text_per_frame in
  let images := pdfbytes2imgs (External := E) scenario.doc_10_20_300 72 in
  let bboxes := ls.get_bboxes (ls.do_layout (H := E) images) in
  ∃ order_predictions,
    (ls.do_order_by_page (H := E) images bboxes scenario.empty_world).1
      = inr order_predictions ∧
    length order_predictions = length (zip images bboxes) ∧
    ∀ i img bb,
      images !! i = Some img → bboxes !! i = Some bb →
      (length bb ≤ 255)%nat →
      order_predictions !! i
      = batch_ordering (External := E) [img] [bb] !! 0%nat.
Proof.
  intros E images bboxes.
  apply (do_order_by_page_aligned (H := E) (λ _ _, eq_refl) images bboxes
           (scenario.page_of 10 0) scenario.empty_world).
  - reflexivity.
  - by_evaluation.
Defined.

Lemma run_surya_whole_batch_witness :
  let E := scenario.toy scenario.one_text_per_frame in
  let images := pdfbytes2imgs (External := E) scenario.doc_3 72 in
  let bboxes := ls.get_bboxes (ls.do_layout (H := E) images) in
  let results := batch_ordering (External := E) images bboxes in
  ∃ table,
    ls.run_surya (H := E) images scenario.empty_world
      = (inr table, log_calls scenario.empty_world [(images, bboxes)]) ∧
    (λ r, (page_idx r, row_bbox r, position r)) <$> table
    ≡ₚ enumerate results ≫= (λ pr,
         (λ box, (pr.1, tk.int_bbox (ob_bbox box), ob_position box))
           <$> or_bboxes pr.2).
Proof.
  intros E images bboxes results.
  apply (run_surya_whole_batch (H := E) images scenario.empty_world).
  - vm_compute. discriminate.
  - by_evaluation.
  - vm_compute. reflexivity.
  - by_evaluation.
Defined.


Lemma crop_images_in_table_order_witness :
  let run := scenario.one_text_per_frame in
  let images := scenario.ocr_images_of scenario.doc_10_255 72 in
  let table := scenario.surya_of run scenario.doc_10_255 72 in
  let cropped := scenario.crops_of run scenario.doc_10_255 72 in
  (λ ir, (i_page_idx ir, i_block_idx ir)) <$> cropped.1
  = (λ r, (page_idx (s_row r), block_idx (s_row r)))
      <$> filter (cropped_row (H := scenario.toy run) images table) table.
Proof.
  intros run images table cropped.
  apply (crop_images_in_table_order (H := scenario.toy run) images table
           72 72 0 cropped.1 cropped.2).
  - by_evaluation.
  - vm_compute. reflexivity.
Defined.

Lemma run_ocr_form_feeds_witness :
  let run := scenario.prints scenario.three_texts in
  let cropped := scenario.crops_of run scenario.doc_3 72 in
  let ocr := ot.run_ocr (H := scenario.toy run)
               (scenario.ocr_images_of scenario.doc_3 72)
               (scenario.surya_of run scenario.doc_3 72)
               72 72 "eng" 0 "temp/sample.tiff" scenario.empty_world in
  (S (count_char form_feed scenario.three_texts) = length cropped.1 →
   ∃ ocr_df, ocr.1 = inr (ocr_df, cropped.2) ∧
             length ocr_df = length cropped.1)
  ∧ (S (count_char form_feed scenario.three_texts) ≠ length cropped.1 →
     ocr.1 = inl (Exception "Error in adding OCR results to DataFrame")).
Proof.
  intros run cropped ocr.
  apply (run_ocr_form_feeds (H := scenario.toy run)
           (scenario.ocr_images_of scenario.doc_3 72)
           (scenario.surya_of run scenario.doc_3 72)
           72 72 "eng" 0 "temp/sample.tiff" scenario.empty_world
           (scenario.surya_of run scenario.doc_3 72)
           cropped.1 cropped.2 scenario.three_texts).
  - vm_compute. reflexivity.
  - vm_compute. reflexivity.
  - vm_compute. discriminate.
  - vm_compute. reflexivity.
Defined.

Lemma run_ocr_without_output_witness :
  let run := scenario.prints_nothing in
  let cropped := scenario.crops_of run scenario.doc_3 72 in
  let ocr := ot.run_ocr (H := scenario.toy run)
               (scenario.ocr_images_of scenario.doc_3 72)
               (scenario.surya_of run scenario.doc_3 72)
               72 72 "eng" 0 "temp/sample.tiff" scenario.empty_world in
  ocr.1 = inr ((λ r, {| t_page_idx := i_page_idx r;
                        t_block_idx := i_block_idx r; t_text := "" |})
                 <$> cropped.1, cropped.2)
  ∧ files ocr.2 !! "temp/sample.tiff" = Some (i_image <$> cropped.1).
Proof.
  intros run cropped ocr.
  apply (run_ocr_without_output (H := scenario.toy run)
           (scenario.ocr_images_of scenario.doc_3 72)
           (scenario.surya_of run scenario.doc_3 72)
           72 72 "eng" 0 "temp/sample.tiff" scenario.empty_world
           (scenario.surya_of run scenario.doc_3 72)
           cropped.1 cropped.2).
  - vm_compute. reflexivity.
  - vm_compute. reflexivity.
  - vm_compute. discriminate.
  - vm_compute. reflexivity.
Defined.

Lemma temp_file_fate_witness :
  let E := scenario.toy scenario.unavailable in
  let img := scenario.Crop (scenario.Page [] 72) (0, 0, 8, 8) in
  let found :=
    files (ot.tesseract_ocr_multi (H := E) "tesseract" [img] "eng"
             "temp/sample.tiff" scenario.empty_world).2
      !! "temp/sample.tiff" in
  match engine_stdout (H := E) (launches (scenario.empty_world (H := E)))
          (ot.tesseract_params "tesseract" "temp/sample.tiff" "eng")
          (Some [img]) with
  | inr (Some _) => found = None
  | _ => found = Some [img]
  end.
Proof.
  intros E img.
  apply (temp_file_fate (H := E) "tesseract" [img] "eng" "temp/sample.tiff"
           scenario.empty_world).
  discriminate.
Defined.

Lemma skipped_pages_have_no_text_witness :
  let merged :=
    scenario.parsed_of scenario.one_text_per_frame scenario.doc_10_255 72 in
  Forall (λ m,
    (255 ≤ length (filter (λ m', m_page_index m' = m_page_index m) merged))%nat →
    m_text m = None) merged.
Proof.
  intros merged.
  pose (E := scenario.toy scenario.one_text_per_frame).
  apply (skipped_pages_have_no_text (H := E) scenario.doc_10_255 "eng" 72
           "sample" scenario.empty_world merged
           (PdfParser.parse_pdf (H := E) scenario.doc_10_255 "eng" 72 "sample"
                                scenario.empty_world).2).
  vm_compute. reflexivity.
Defined.


Lemma parse_pdf_zero_ppi_witness :
  let E := scenario.toy scenario.one_text_per_frame in
  let laid_out :=
    PdfParser.get_surya_df (H := E) scenario.doc_3 0 scenario.empty_world in
  PdfParser.parse_pdf (H := E) scenario.doc_3 "eng" 0 "sample"
                      scenario.empty_world
  = (inl ZeroDivisionError, laid_out.2).
Proof.
  intros E laid_out.
  apply (parse_pdf_zero_ppi (H := E) scenario.doc_3 "eng" "sample"
           scenario.empty_world
           (scenario.surya_of scenario.one_text_per_frame scenario.doc_3 0)
           laid_out.2).
  vm_compute. reflexivity.
Defined.

Lemma get_report_names_partition_witness :
  ∃ shares,
    Forall2 (λ job_id share,
               master.get_report_names
                 ["a"; "b"; "c"; "d"; "e"; "f"; "g"]
                 (Z.of_nat job_id) (Z.of_nat 3) = inr share)
            (seq 1 3) shares
    ∧ mjoin shares = ["a"; "b"; "c"; "d"; "e"; "f"; "g"].
Proof.
  apply (get_report_names_partition ["a"; "b"; "c"; "d"; "e"; "f"; "g"] 3).
  lia.
Defined.

End further_scenarios.
